(** * Bank-slip deposit verification: [app/api/verify-slip/route.ts]

    A shallow embedding of the request handler [POST] and of its helpers
    [validateReceiver], [checkSlipAlreadyUsed], [checkDepositLimits] and
    [recordVerifiedSlip], followed by the properties of the deposit
    pipeline.

    Conventions of the embedding:
    - the relational store is a record of tables, each table a list of rows
      in insertion order;
    - an amount of the store (a decimal column, written and read as a
      decimal string) and an amount of a provider answer are decimals with
      two fractional digits, held as integers ([Z]) of satang, hundredths
      of a baht, below 2^53; a JavaScript number is an IEEE 754 double
      ([float]), and [Number] gives the double of a decimal amount, so the
      sum and the comparison of the limit check are those of doubles;
    - instants are integers of milliseconds; the local midnight of an
      instant follows the rules of the host's time zone and is a field of
      [Env], as the clock is;
    - an [async] function is a computation over a [World] (the store and
      the trace of external effects) that returns a value or throws;
    - everything the handler obtains from outside (session, form data,
      provider answer, notification outcome, clock, store faults) is a
      field of [Env]; [sendDepositNotification] is imported from
      [lib/telegram/bot], so only whether its promise resolves or rejects
      is taken, as a parameter;
    - a store fault can hit the settlement transaction at the insert, at
      the update or at the commit; the queries before it do not fail. *)

From Stdlib Require Import ZArith List String Bool Lia Floats.
Import ListNotations.

Local Open Scope string_scope.
Local Open Scope list_scope.
Local Open Scope Z_scope.

(** ** JavaScript values read by the handler *)

(** Truthiness of a string ([""] is falsy) and of a number ([0] is falsy). *)
Definition truthy_string (s : string) : bool := negb (String.eqb s "").
Definition truthy_number (n : Z) : bool := negb (n =? 0).

(** [a !== b] on an optional string field against a string constant:
    [undefined] differs from every string. *)
Definition strict_neq (a : option string) (b : string) : bool :=
  match a with
  | Some s => negb (String.eqb s b)
  | None => true
  end.

(** ** Amounts and JavaScript numbers *)

(** The double nearest to an integer. *)
Definition float_of_Z (n : Z) : float :=
  SF2Prim (binary_normalize prec emax n 0 false).

(** [Number(s)] for the decimal string [s] of an amount of [n] satang, and
    the number that a JSON text with this decimal is parsed to: the double
    nearest to [n / 100]. *)
Definition Number (n : Z) : float := (float_of_Z n / float_of_Z 100)%float.

(** ** The provider's answer ([EasySlipResponse]) *)

Module EasySlip.

Record Name := { th : option string; en : option string }.

(** [bank?: { type; account }] and [proxy?: { type; account }]. *)
Record Identifier := { type : string; account : string }.

Record Account := {
  name : option Name;
  bank : option Identifier;
  proxy : option Identifier
}.

Record BankInfo := {
  bank_id : string;
  bank_name : option string;
  bank_short : option string
}.

Record Party := {
  party_bank : BankInfo;
  party_account : option Account;
  merchantId : option string
}.

Record Local := { local_amount : option Z; currency : option string }.

(** [amount.amount] is a JSON number: it is held as the decimal it is
    written with, in satang, and [Number] gives the double it is parsed
    to. *)
Record Amount := { amount : Z; local : Local }.

Record Data := {
  payload : string;
  transRef : option string;
  date : string;
  countryCode : string;
  data_amount : Amount;
  fee : option Z;
  ref1 : option string;
  ref2 : option string;
  ref3 : option string;
  sender : option Party;
  receiver : option Party
}.

Record Response := {
  status : Z;
  data : option Data;
  message : option string
}.

End EasySlip.

Record ExpectedReceiver := {
  expected_th : string;
  expected_en : string;
  expected_account : string;
  expected_type : string
}.

Definition EXPECTED_RECEIVER : ExpectedReceiver := {|
  expected_th := "บจก. เอ็กซ์เพิร์ท เ";
  expected_en := "EXPERT 8";
  expected_account := "XXX-X-XX730-5";
  expected_type := "BANKAC"
|}.

(** [data.data?.receiver?.account] *)
Definition receiver_account (d : EasySlip.Response) : option EasySlip.Account :=
  match EasySlip.data d with
  | Some sd =>
      match EasySlip.receiver sd with
      | Some p => EasySlip.party_account p
      | None => None
      end
  | None => None
  end.

(** [receiver.name?.th], [receiver.name?.en], [receiver.bank?.type],
    [receiver.bank?.account] *)
Definition name_th (a : EasySlip.Account) : option string :=
  match EasySlip.name a with Some n => EasySlip.th n | None => None end.
Definition name_en (a : EasySlip.Account) : option string :=
  match EasySlip.name a with Some n => EasySlip.en n | None => None end.
Definition bank_type (a : EasySlip.Account) : option string :=
  option_map EasySlip.type (EasySlip.bank a).
Definition bank_account (a : EasySlip.Account) : option string :=
  option_map EasySlip.account (EasySlip.bank a).

Definition validateReceiver (d : EasySlip.Response) : bool :=
  match receiver_account d with
  | None => false
  | Some receiver =>
      if strict_neq (name_th receiver) (expected_th EXPECTED_RECEIVER)
         || strict_neq (name_en receiver) (expected_en EXPECTED_RECEIVER)
      then false
      else if strict_neq (bank_type receiver) (expected_type EXPECTED_RECEIVER)
              || strict_neq (bank_account receiver) (expected_account EXPECTED_RECEIVER)
      then false
      else true
  end.

(** ** The settlement store *)

Record PaymentTransaction := {
  pt_status : string;
  pt_statusName : string;
  pt_total : Z;
  pt_amount : Z;
  pt_userId : Z;
  pt_method : string;
  pt_transRef : string;
  pt_merchantId : string;
  pt_orderNo : string;
  pt_refNo : string;
  pt_productDetail : string;
  pt_createdAt : Z;
  pt_updatedAt : Z;
  pt_paymentDate : Z
}.

Record UserBalance := {
  ub_userId : Z;
  ub_balance : Z;
  ub_updatedAt : Z
}.

Record UserRow := {
  users_id : Z;
  users_depositLimitId : option Z
}.

Record DepositLimit := {
  dl_id : Z;
  dl_name : string;
  dl_dailyLimit : Z
}.

Record Store := {
  paymentTransactions : list PaymentTransaction;
  userBalances : list UserBalance;
  users : list UserRow;
  depositLimits : list DepositLimit
}.

(** ** Computations: store, trace of effects, exceptions *)

Inductive Error :=
| TypeError
| SyntaxError
| NetworkError
| StoreError
| NotificationError
| ErrorMessage (msg : string).

Inductive Event :=
| EvFetch (image : string)
| EvSelectSlip (transRef : string)
| EvSelectUserLimit (userId : Z)
| EvSelectDailyTotal (userId : Z)
| EvBegin
| EvInsertPayment (transRef : string) (amount : Z)
| EvUpdateBalance (userId : Z) (amount : Z)
| EvCommit
| EvRollback
| EvNotify (userName : string) (amount : Z) (transRef : string)
| EvConsoleError (label : string).

Record World := { store : Store; trace : list Event }.

Inductive Outcome (A : Type) :=
| Returned (a : A)
| Thrown (e : Error).
Arguments Returned {A} a.
Arguments Thrown {A} e.

Definition M (A : Type) : Type := World -> Outcome A * World.

Definition ret {A} (a : A) : M A := fun w => (Returned a, w).

Definition throw {A} (e : Error) : M A := fun w => (Thrown e, w).

Definition bind {A B} (m : M A) (k : A -> M B) : M B :=
  fun w =>
    match m w with
    | (Returned a, w') => k a w'
    | (Thrown e, w') => (Thrown e, w')
    end.

Notation "x <- m ;; k" := (bind m (fun x => k))
  (at level 61, m at next level, right associativity).
Notation "m ;;; k" := (bind m (fun _ => k))
  (at level 61, right associativity).

(** [try { body } catch (error) { handler }] *)
Definition try_catch {A} (body : M A) (handler : Error -> M A) : M A :=
  fun w =>
    match body w with
    | (Returned a, w') => (Returned a, w')
    | (Thrown e, w') => handler e w'
    end.

Definition emit (ev : Event) : M unit :=
  fun w => (Returned tt, {| store := store w; trace := trace w ++ [ev] |}).

Definition read_store : M Store := fun w => (Returned (store w), w).

Definition write_store (s : Store) : M unit :=
  fun w => (Returned tt, {| store := s; trace := trace w |}).

(** ** What a request brings with it *)

(** A [File] of the multipart body. [file_bytes] stands for the content
    that is base64-encoded and posted to the provider. *)
Record File := { file_size : Z; file_type : string; file_bytes : string }.

Inductive FormDataEntryValue :=
| FormString (s : string)
| FormFile (f : File).

(** The multipart fields in the order they were appended. *)
Definition FormData := list (string * FormDataEntryValue).

(** [formData.get(key)]: the first value of that name, or [null]. *)
Definition formData_get (key : string) (fd : FormData) : option FormDataEntryValue :=
  option_map snd (find (fun e => String.eqb (fst e) key) fd).

(** The session user returned by [getUser()]. *)
Record User := { id : Z; name : option string; email : string }.

(** [user.name || user.email] *)
Definition user_display (u : User) : string :=
  match name u with
  | Some n => if truthy_string n then n else email u
  | None => email u
  end.

(** What [await fetch(API_URL, ...)] followed by [response.json()] can do. *)
Inductive BodyOutcome :=
| BodyNotJson
| BodyJson (d : EasySlip.Response).

Inductive FetchOutcome :=
| FetchRejects
| FetchResponse (ok : bool) (body : BodyOutcome).

(** Where an injected store fault hits the settlement transaction. *)
Inductive TxStep := AtInsert | AtUpdate | AtCommit.

Record DepositNotification := {
  dn_userName : string;
  dn_amount : Z;
  dn_transRef : string
}.

Record Env := {
  getUser : option User;
  request_formData : FormData;
  (** the provider's answer to the posted image *)
  easyslip : string -> FetchOutcome;
  (** [true] when the promise of [sendDepositNotification] resolves,
      [false] when it rejects *)
  sendDepositNotification : DepositNotification -> bool;
  (** the clock, in milliseconds *)
  now : Z;
  (** [localMidnight t] is the instant that [setHours(0, 0, 0, 0)] gives to
      a [Date] of the instant [t], by the rules of the host's time zone *)
  localMidnight : Z -> Z;
  storeFault : option TxStep
}.

(** ** Store operations *)

Definition select_paymentTransactions_by_transRef (s : Store) (transRef : string)
  : list PaymentTransaction :=
  firstn 1 (filter (fun p => String.eqb (pt_transRef p) transRef) (paymentTransactions s)).

Definition checkSlipAlreadyUsed (transRef : string) : M bool :=
  emit (EvSelectSlip transRef) ;;;
  s <- read_store ;;
  let existingSlip := select_paymentTransactions_by_transRef s transRef in
  ret (Nat.ltb 0 (List.length existingSlip)).

(** [users LEFT JOIN depositLimits ON users.depositLimitId = depositLimits.id]
    for one row of [users]. *)
Definition leftJoin_depositLimits (s : Store) (u : UserRow) : list (option DepositLimit) :=
  match users_depositLimitId u with
  | None => [None]
  | Some i =>
      match filter (fun d => dl_id d =? i) (depositLimits s) with
      | [] => [None]
      | ds => map Some ds
      end
  end.

Definition select_user_depositLimit (s : Store) (userId : Z) : list (option DepositLimit) :=
  firstn 1 (flat_map (leftJoin_depositLimits s)
                     (filter (fun u => users_id u =? userId) (users s))).

Fixpoint sum (l : list Z) : Z :=
  match l with
  | [] => 0
  | x :: l' => x + sum l'
  end.

(** [COALESCE(sum(amount), '0')] over the user's rows created since [today]. *)
Definition select_dailyTotal (s : Store) (userId today : Z) : Z :=
  sum (map pt_amount
           (filter (fun p => (pt_userId p =? userId) && (today <=? pt_createdAt p))
                   (paymentTransactions s))).

Inductive LimitMessage :=
| NoDepositLimitSet                 (* 'No deposit limit set for user' *)
| WouldExceedDailyLimit (dailyLimit : Z).
    (* `Deposit would exceed daily limit of ฿${dailyLimit.toLocaleString()}`,
       with the limit as the decimal of the tier *)

Record DepositCheck := { allowed : bool; check_message : option LimitMessage }.

Definition checkDepositLimits (env : Env) (userId amount : Z) : M DepositCheck :=
  emit (EvSelectUserLimit userId) ;;;
  s <- read_store ;;
  match select_user_depositLimit s userId with
  | [] => throw TypeError
  | None :: _ =>
      ret {| allowed := false; check_message := Some NoDepositLimitSet |}
  | Some depositLimit :: _ =>
      let today := localMidnight env (now env) in
      emit (EvSelectDailyTotal userId) ;;;
      s' <- read_store ;;
      let dailyTotalAmount := Number (select_dailyTotal s' userId today) in
      let newDailyTotal := (dailyTotalAmount + Number amount)%float in
      let dailyLimit := Number (dl_dailyLimit depositLimit) in
      if (dailyLimit <? newDailyTotal)%float
      then ret {| allowed := false;
                  check_message :=
                    Some (WouldExceedDailyLimit (dl_dailyLimit depositLimit)) |}
      else ret {| allowed := true; check_message := None |}
  end.

(** [db.transaction(async (tx) => body)]: the body runs on the store; when
    it throws, or the commit fails, the store is what it was at [EvBegin]. *)
Definition transaction (fault : option TxStep) (body : M unit) : M unit :=
  fun w =>
    match (emit EvBegin ;;; body) w with
    | (Returned _, w') =>
        match fault with
        | Some AtCommit =>
            (Thrown StoreError, {| store := store w; trace := trace w' ++ [EvRollback] |})
        | _ =>
            (Returned tt, {| store := store w'; trace := trace w' ++ [EvCommit] |})
        end
    | (Thrown e, w') =>
        (Thrown e, {| store := store w; trace := trace w' ++ [EvRollback] |})
    end.

Definition new_payment (transRef : string) (amount userId date : Z) : PaymentTransaction := {|
  pt_status := "CP";
  pt_statusName := "ชำระเงินสำเร็จ";
  pt_total := amount;
  pt_amount := amount;
  pt_userId := userId;
  pt_method := "BANK";
  pt_transRef := transRef;
  pt_merchantId := "";
  pt_orderNo := transRef;
  pt_refNo := transRef;
  pt_productDetail := "เติมเงินผ่านการโอนเงิน";
  pt_createdAt := date;
  pt_updatedAt := date;
  pt_paymentDate := date
|}.

Definition insert_payment (row : PaymentTransaction) (s : Store) : Store := {|
  paymentTransactions := paymentTransactions s ++ [row];
  userBalances := userBalances s;
  users := users s;
  depositLimits := depositLimits s
|}.

(** [SET balance = balance + amount, updatedAt = date WHERE userId = ...] *)
Definition credit (userId amount date : Z) (b : UserBalance) : UserBalance :=
  if ub_userId b =? userId
  then {| ub_userId := ub_userId b;
          ub_balance := ub_balance b + amount;
          ub_updatedAt := date |}
  else b.

Definition update_balance (userId amount date : Z) (s : Store) : Store := {|
  paymentTransactions := paymentTransactions s;
  userBalances := map (credit userId amount date) (userBalances s);
  users := users s;
  depositLimits := depositLimits s
|}.

Definition tx_insert (fault : option TxStep) (row : PaymentTransaction) : M unit :=
  match fault with
  | Some AtInsert => throw StoreError
  | _ =>
      emit (EvInsertPayment (pt_transRef row) (pt_amount row)) ;;;
      s <- read_store ;;
      write_store (insert_payment row s)
  end.

Definition tx_update_balance (fault : option TxStep) (userId amount date : Z) : M unit :=
  match fault with
  | Some AtUpdate => throw StoreError
  | _ =>
      emit (EvUpdateBalance userId amount) ;;;
      s <- read_store ;;
      write_store (update_balance userId amount date s)
  end.

Definition recordVerifiedSlip (env : Env) (transRef : string) (amount : Z)
    (userId : option Z) : M unit :=
  match userId with
  | None => throw (ErrorMessage "User ID is required")
  | Some uid =>
      if negb (truthy_number uid)
      then throw (ErrorMessage "User ID is required")
      else
        transaction (storeFault env)
          (tx_insert (storeFault env) (new_payment transRef amount uid (now env)) ;;;
           tx_update_balance (storeFault env) uid amount (now env))
  end.

(** ** The handler *)

Inductive Details :=
| DetailsText (s : string)
| DetailsLimit (m : LimitMessage).

(** [NextResponse.json({ status, message, details }, { status })] *)
Record Response := {
  http_status : Z;
  body_status : Z;
  body_message : string;
  body_details : option Details
}.

Definition json (status : Z) (message : string) (details : option Details)
    (http : Z) : Response :=
  {| http_status := http; body_status := status;
     body_message := message; body_details := details |}.

(** [user?.id || null] *)
Definition user_id_or_null (user : option User) : option Z :=
  match user with
  | Some u => if truthy_number (id u) then Some (id u) else None
  | None => None
  end.

(** The end of the [try] block: settlement, notification, response. *)
Definition record_and_notify (env : Env) (transRef : string) (amount : Z) : M Response :=
  let user := getUser env in
  recordVerifiedSlip env transRef amount (user_id_or_null user) ;;;
  match user with
  | Some u =>
      let n := {| dn_userName := user_display u;
                  dn_amount := amount;
                  dn_transRef := transRef |} in
      emit (EvNotify (dn_userName n) (dn_amount n) (dn_transRef n)) ;;;
      if sendDepositNotification env n
      then ret tt
      else throw NotificationError
  | None => ret tt
  end ;;;
  ret (json 200 "success" None 200).

(** The part of the [try] block from [if (data.data?.transRef)] on. *)
Definition settle (env : Env) (sd : EasySlip.Data) : M Response :=
  let user := getUser env in
  let amount := EasySlip.amount (EasySlip.data_amount sd) in
  match EasySlip.transRef sd with
  | Some transRef =>
      if truthy_string transRef then
        isUsed <- checkSlipAlreadyUsed transRef ;;
        if isUsed
        then ret (json 400 "slip_already_used"
                    (Some (DetailsText "This transfer slip has already been used")) 400)
        else
          match user with
          | Some u =>
              depositCheck <- checkDepositLimits env (id u) amount ;;
              if negb (allowed depositCheck)
              then ret (json 400 "deposit_limit_exceeded"
                          (option_map DetailsLimit (check_message depositCheck)) 400)
              else record_and_notify env transRef amount
          | None => record_and_notify env transRef amount
          end
      else ret (json 200 "success" None 200)
  | None => ret (json 200 "success" None 200)
  end.

Definition maxFileSize : Z := 10 * 1024 * 1024.

Definition POST_try (env : Env) : M Response :=
  match formData_get "slip" (request_formData env) with
  | None => ret (json 400 "invalid_payload" None 400)
  | Some (FormString s) =>
      if negb (truthy_string s)
      then ret (json 400 "invalid_payload" None 400)
      else throw TypeError
  | Some (FormFile file) =>
      if file_size file >? maxFileSize
      then ret (json 400 "image_size_too_large" None 400)
      else if negb (String.prefix "image/" (file_type file))
      then ret (json 400 "invalid_image" None 400)
      else
        emit (EvFetch (file_bytes file)) ;;;
        match easyslip env (file_bytes file) with
        | FetchRejects => throw NetworkError
        | FetchResponse false _ =>
            emit (EvConsoleError "EasySlip API error:") ;;;
            ret (json 400 "invalid_slip" None 400)
        | FetchResponse true BodyNotJson => throw SyntaxError
        | FetchResponse true (BodyJson data) =>
            match EasySlip.data data with
            | None =>
                ret (json 400 "invalid_slip"
                       (option_map DetailsText (EasySlip.message data)) 400)
            | Some sd =>
                if negb (validateReceiver data)
                then ret (json 400 "invalid_receiver"
                            (Some (DetailsText "Transfer must be to the correct account only"))
                            400)
                else settle env sd
            end
        end
  end.

Definition POST (env : Env) : M Response :=
  try_catch (POST_try env)
    (fun error =>
       emit (EvConsoleError "Error verifying slip:") ;;;
       ret (json 500 "server_error" None 500)).

(** A request starts on the store with an empty trace. *)
Definition start (s : Store) : World := {| store := s; trace := [] |}.

Definition response_of (env : Env) (s : Store) : Outcome Response :=
  fst (POST env (start s)).

Definition store_after (env : Env) (s : Store) : Store :=
  store (snd (POST env (start s))).

Definition trace_of (env : Env) (s : Store) : list Event :=
  trace (snd (POST env (start s))).

(** Requests handled one after the other. *)
Fixpoint run_requests (envs : list Env) (s : Store) : Store :=
  match envs with
  | [] => s
  | env :: envs' => run_requests envs' (store_after env s)
  end.

(** ** Reading the store: what the queries compute *)

(** A transfer reference is recorded when some payment row carries it. *)
Definition recorded (s : Store) (transRef : string) : Prop :=
  exists p, In p (paymentTransactions s) /\ pt_transRef p = transRef.

Definition slip_used (s : Store) (transRef : string) : bool :=
  existsb (fun p => String.eqb (pt_transRef p) transRef) (paymentTransactions s).

(** The tier assigned to a user: [None] when the user has no row,
    [Some None] when the row has no tier (or names a tier that does not
    exist), [Some (Some d)] otherwise. *)
Definition user_tier (s : Store) (userId : Z) : option (option DepositLimit) :=
  match find (fun u => users_id u =? userId) (users s) with
  | None => None
  | Some row =>
      Some (match users_depositLimitId row with
            | None => None
            | Some i => find (fun d => dl_id d =? i) (depositLimits s)
            end)
  end.

(** The user's row of [users] has a null [depositLimitId]. *)
Definition has_no_tier (s : Store) (userId : Z) : Prop :=
  exists row,
    find (fun u => users_id u =? userId) (users s) = Some row /\
    users_depositLimitId row = None.

(** The sum of the user's payment amounts since local midnight. *)
Definition todayTotal (env : Env) (s : Store) (userId : Z) : Z :=
  select_dailyTotal s userId (localMidnight env (now env)).

(** The balance of a user: the first row of [userBalances] of that user. *)
Definition balance_of (s : Store) (userId : Z) : option Z :=
  option_map ub_balance (find (fun b => ub_userId b =? userId) (userBalances s)).

(** The store once a deposit is settled. *)
Definition settled (env : Env) (transRef : string) (amount userId : Z) (s : Store) : Store :=
  update_balance userId amount (now env)
    (insert_payment (new_payment transRef amount userId (now env)) s).

Definition log (evs : list Event) (w : World) : World :=
  {| store := store w; trace := trace w ++ evs |}.

(** Events that write to the settlement store. *)
Definition is_write (ev : Event) : bool :=
  match ev with
  | EvInsertPayment _ _ | EvUpdateBalance _ _ => true
  | _ => false
  end.

(** The notifications sent, in order. *)
Definition notifications (evs : list Event) : list Event :=
  filter (fun ev => match ev with EvNotify _ _ _ => true | _ => false end) evs.

Definition read_only (evs : list Event) : Prop :=
  forall ev, In ev evs -> is_write ev = false.

(** [newDailyTotal > dailyLimit] as [checkDepositLimits] computes it from
    the total of the day, the amount and the limit: the sum and the
    comparison are those of doubles. *)
Definition exceeds (total amount dailyLimit : Z) : bool :=
  (Number dailyLimit <? Number total + Number amount)%float.

Definition limit_verdict (total amount dailyLimit : Z) : DepositCheck :=
  if exceeds total amount dailyLimit
  then {| allowed := false; check_message := Some (WouldExceedDailyLimit dailyLimit) |}
  else {| allowed := true; check_message := None |}.

(** ** The stages of the handler *)

(** The receiver of the answer is the expected merchant: the receiver
    account is there, and its Thai name, English name, identifier type and
    account number are those of [EXPECTED_RECEIVER]. *)
Definition receiver_is_merchant (data : EasySlip.Response) : Prop :=
  exists acc,
    receiver_account data = Some acc /\
    name_th acc = Some (expected_th EXPECTED_RECEIVER) /\
    name_en acc = Some (expected_en EXPECTED_RECEIVER) /\
    bank_type acc = Some (expected_type EXPECTED_RECEIVER) /\
    bank_account acc = Some (expected_account EXPECTED_RECEIVER).

(** The request posts an image that the provider verifies with the answer
    [data], whose payload is [sd]. *)
Definition slip_verifies (env : Env) (file : File) (data : EasySlip.Response)
    (sd : EasySlip.Data) : Prop :=
  formData_get "slip" (request_formData env) = Some (FormFile file) /\
  file_size file <= maxFileSize /\
  String.prefix "image/" (file_type file) = true /\
  easyslip env (file_bytes file) = FetchResponse true (BodyJson data) /\
  EasySlip.data data = Some sd.

(** The submission bears the transfer reference [r] and the verified amount
    [a]: its slip verifies, names the expected receiver and carries [r]. *)
Record Bears (env : Env) (file : File) (data : EasySlip.Response)
    (sd : EasySlip.Data) (r : string) (a : Z) : Prop := {
  bears_verified : slip_verifies env file data sd;
  bears_receiver : validateReceiver data = true;
  bears_transRef : EasySlip.transRef sd = Some r;
  bears_nonempty : r <> "";
  bears_amount : EasySlip.amount (EasySlip.data_amount sd) = a
}.

Definition notification (u : User) (r : string) (a : Z) : DepositNotification :=
  {| dn_userName := user_display u; dn_amount := a; dn_transRef := r |}.

Definition invalid_receiver : Response :=
  json 400 "invalid_receiver"
    (Some (DetailsText "Transfer must be to the correct account only")) 400.

Definition slip_already_used : Response :=
  json 400 "slip_already_used"
    (Some (DetailsText "This transfer slip has already been used")) 400.

Definition deposit_limit_exceeded (m : LimitMessage) : Response :=
  json 400 "deposit_limit_exceeded" (Some (DetailsLimit m)) 400.

Definition success : Response := json 200 "success" None 200.

Definition server_error : Response := json 500 "server_error" None 500.

(** ** Every way a request can end *)

Definition rejection_messages : list string :=
  [ "invalid_payload"; "image_size_too_large"; "invalid_image"; "invalid_slip";
    "invalid_receiver"; "slip_already_used"; "deposit_limit_exceeded" ].

(** [Handled env w resp w']: the handler, started in [w], answers [resp] and
    leaves [w'], having added [evs] to the trace. Only the last case changes
    the store. *)
Inductive Handled (env : Env) (w : World) (resp : Response) (w' : World) : Prop :=
| Handled_rejected msg details evs :
    resp = json 400 msg details 400 ->
    In msg rejection_messages ->
    store w' = store w -> trace w' = trace w ++ evs -> read_only evs ->
    Handled env w resp w'
| Handled_skipped evs :
    resp = success ->
    store w' = store w -> trace w' = trace w ++ evs -> read_only evs ->
    Handled env w resp w'
| Handled_failed evs :
    resp = server_error ->
    store w' = store w -> trace w' = trace w ++ evs ->
    Handled env w resp w'
| Handled_settled u r a evs :
    resp = (if sendDepositNotification env (notification u r a)
            then success else server_error) ->
    store w' = settled env r a (id u) (store w) -> trace w' = trace w ++ evs ->
    getUser env = Some u -> id u <> 0 ->
    slip_used (store w) r = false ->
    storeFault env = None ->
    (exists d, user_tier (store w) (id u) = Some (Some d) /\
               exceeds (todayTotal env (store w) (id u)) a (dl_dailyLimit d) = false) ->
    (exists file data sd, Bears env file data sd r a) ->
    Handled env w resp w'.

Definition catch_all (e : Error) : M Response :=
  emit (EvConsoleError "Error verifying slip:") ;;; ret server_error.

(** The events of a settlement that commits. *)
Definition settlement_events (file : File) (r : string) (a : Z) (u : User)
  : list Event :=
  [EvFetch (file_bytes file); EvSelectSlip r;
   EvSelectUserLimit (id u); EvSelectDailyTotal (id u);
   EvBegin; EvInsertPayment r a; EvUpdateBalance (id u) a; EvCommit;
   EvNotify (user_display u) a r].

(** The events of a settlement that is rolled back at [step]. *)
Definition rollback_events (file : File) (r : string) (a : Z) (u : User)
    (step : TxStep) : list Event :=
  [EvFetch (file_bytes file); EvSelectSlip r;
   EvSelectUserLimit (id u); EvSelectDailyTotal (id u); EvBegin] ++
  match step with
  | AtInsert => []
  | AtUpdate => [EvInsertPayment r a]
  | AtCommit => [EvInsertPayment r a; EvUpdateBalance (id u) a]
  end ++ [EvRollback; EvConsoleError "Error verifying slip:"].

(** The request with another multipart body. *)
Definition with_formData (env : Env) (fd : FormData) : Env := {|
  getUser := getUser env;
  request_formData := fd;
  easyslip := easyslip env;
  sendDepositNotification := sendDepositNotification env;
  now := now env;
  localMidnight := localMidnight env;
  storeFault := storeFault env
|}.

(** The fields of a body other than the claimed ['amount']. *)
Definition without_amount (fd : FormData) : FormData :=
  filter (fun e => negb (String.eqb (fst e) "amount")) fd.

(** ** Sample data *)

Module Sample.

Definition merchant_account : EasySlip.Account := {|
  EasySlip.name := Some {| EasySlip.th := Some "บจก. เอ็กซ์เพิร์ท เ";
                           EasySlip.en := Some "EXPERT 8" |};
  EasySlip.bank := Some {| EasySlip.type := "BANKAC";
                           EasySlip.account := "XXX-X-XX730-5" |};
  EasySlip.proxy := None
|}.

Definition other_account : EasySlip.Account := {|
  EasySlip.name := Some {| EasySlip.th := Some "บจก. เอ็กซ์เพิร์ท เ";
                           EasySlip.en := Some "EXPERT 9" |};
  EasySlip.bank := Some {| EasySlip.type := "BANKAC";
                           EasySlip.account := "XXX-X-XX730-5" |};
  EasySlip.proxy := None
|}.

Definition party (a : option EasySlip.Account) : EasySlip.Party := {|
  EasySlip.party_bank := {| EasySlip.bank_id := "004";
                            EasySlip.bank_name := Some "KBANK";
                            EasySlip.bank_short := Some "KBANK" |};
  EasySlip.party_account := a;
  EasySlip.merchantId := None
|}.

Definition slip_data (a : option EasySlip.Account) (r : option string) (amt : Z)
  : EasySlip.Data := {|
  EasySlip.payload := "0041000600000101030040220";
  EasySlip.transRef := r;
  EasySlip.date := "2024-05-01T10:00:00+07:00";
  EasySlip.countryCode := "TH";
  EasySlip.data_amount :=
    {| EasySlip.amount := amt;
       EasySlip.local := {| EasySlip.local_amount := None;
                            EasySlip.currency := None |} |};
  EasySlip.fee := Some 0;
  EasySlip.ref1 := None;
  EasySlip.ref2 := None;
  EasySlip.ref3 := None;
  EasySlip.sender := Some (party None);
  EasySlip.receiver := Some (party a)
|}.

Definition slip (a : option EasySlip.Account) (r : option string) (amt : Z)
  : EasySlip.Response := {|
  EasySlip.status := 200;
  EasySlip.data := Some (slip_data a r amt);
  EasySlip.message := None
|}.

Definition png : File :=
  {| file_size := 204800; file_type := "image/png"; file_bytes := "PNG" |}.

Definition alice : User :=
  {| id := 1; name := Some "Alice"; email := "alice@example.com" |}.

Definition bob : User :=
  {| id := 2; name := None; email := "bob@example.com" |}.

(** 1 May 2024, 10:00 on a host whose zone stays seven hours east of UTC
    all year. *)
Definition ten_am : Z := 1714532400000.
Definition utc7 : Z := 7 * 3600000.
Definition msPerDay : Z := 86400000.

(** [setHours(0, 0, 0, 0)] on that host: local midnight of the instant
    [t]. *)
Definition setHours0 (t : Z) : Z := t - (t + utc7) mod msPerDay.

Definition request (user : option User) (fd : FormData) (d : EasySlip.Response)
    (notified : bool) (fault : option TxStep) : Env := {|
  getUser := user;
  request_formData := fd;
  easyslip := fun _ => FetchResponse true (BodyJson d);
  sendDepositNotification := fun _ => notified;
  now := ten_am;
  localMidnight := setHours0;
  storeFault := fault
|}.

Definition form (claimed : string) : FormData :=
  [("slip", FormFile png); ("amount", FormString claimed)].

(** Amounts in satang: Alice is on the tier of 500.00 and has deposited
    480.00 today; Bob has no tier. *)
Definition shop : Store := {|
  paymentTransactions :=
    [new_payment "2024050100001" 48000 1 (ten_am - 3600000)];
  userBalances :=
    [ {| ub_userId := 1; ub_balance := 48100; ub_updatedAt := ten_am - 3600000 |};
      {| ub_userId := 2; ub_balance := 0; ub_updatedAt := 0 |} ];
  users :=
    [ {| users_id := 1; users_depositLimitId := Some 1 |};
      {| users_id := 2; users_depositLimitId := None |} ];
  depositLimits :=
    [ {| dl_id := 1; dl_name := "Level 1"; dl_dailyLimit := 50000 |} ]
|}.

End Sample.

(** Requests on the sample store. *)
Module Scenario.
Import Sample.

Definition r2 : string := "2024050100002".

(** Alice deposits [amt] with a fresh slip. *)
Definition deposit (amt : Z) (notified : bool) (fault : option TxStep) : Env :=
  request (Some alice) (form "2000") (slip (Some merchant_account) (Some r2) amt)
    notified fault.

(** Bob submits a slip with the reference [r]. *)
Definition bob_submits (acc : EasySlip.Account) (r : option string) : Env :=
  request (Some bob) (form "700") (slip (Some acc) r 700) true None.

(** A submission without a session. *)
Definition anonymous : Env :=
  request None (form "2000") (slip (Some merchant_account) (Some r2) 2000) true None.

Definition level1 : DepositLimit :=
  {| dl_id := 1; dl_name := "Level 1"; dl_dailyLimit := 50000 |}.

(** A tier with the daily limit [limit]. *)
Definition tier (limit : Z) : DepositLimit :=
  {| dl_id := 1; dl_name := "Level 1"; dl_dailyLimit := limit |}.


(** The sample store without Alice's row of [userBalances]. *)
Definition shop_without_balance : Store := {|
  paymentTransactions := paymentTransactions shop;
  userBalances := [ {| ub_userId := 2; ub_balance := 0; ub_updatedAt := 0 |} ];
  users := users shop;
  depositLimits := depositLimits shop
|}.

End Scenario.

(** ** Observations on whole runs *)

(** Events that neither commit a settlement nor notify. *)
Definition quiet (evs : list Event) : bool :=
  forallb (fun ev => match ev with
                     | EvCommit | EvNotify _ _ _ => false
                     | _ => true
                     end) evs.

(** [Ended env w resp w']: how the store and the trace stand when the
    handler has answered. Either the store is as it was and nothing was
    committed or notified, or one deposit of the session user is settled,
    and the commit is directly followed by the one notification. *)
Inductive Ended (env : Env) (w : World) (resp : Response) (w' : World) : Prop :=
| Ended_unchanged evs :
    store w' = store w -> trace w' = trace w ++ evs -> quiet evs = true ->
    Ended env w resp w'
| Ended_settled u r a pre post :
    store w' = settled env r a (id u) (store w) ->
    trace w' = trace w ++ pre ++ [EvCommit; EvNotify (user_display u) a r] ++ post ->
    quiet pre = true -> quiet post = true ->
    getUser env = Some u ->
    resp = (if sendDepositNotification env (notification u r a)
            then success else server_error) ->
    Ended env w resp w'.

(** The sum of the amounts of a user's payment rows. *)
Definition paid (s : Store) (userId : Z) : Z :=
  sum (map pt_amount (filter (fun p => pt_userId p =? userId) (paymentTransactions s))).

(** The transfer references of the payment rows, in order. *)
Definition transRefs (s : Store) : list string :=
  map pt_transRef (paymentTransactions s).

(** The request posts an image that passes the local checks. *)
Definition posts_image (env : Env) (file : File) : Prop :=
  formData_get "slip" (request_formData env) = Some (FormFile file) /\
  file_size file <= maxFileSize /\
  String.prefix "image/" (file_type file) = true.

(** A payment row as [recordVerifiedSlip] writes it. *)
Definition bank_deposit_row (p : PaymentTransaction) : Prop :=
  pt_status p = "CP" /\ pt_method p = "BANK" /\ pt_total p = pt_amount p /\
  pt_orderNo p = pt_transRef p /\ pt_refNo p = pt_transRef p /\
  pt_merchantId p = "" /\ pt_transRef p <> "" /\
  pt_updatedAt p = pt_createdAt p /\ pt_paymentDate p = pt_createdAt p.

(** ** The deposit page ([DepositPage]), the caller of the handler

    The page is modelled by the state its handlers read and write and by
    the toasts they raise. The fields that are only displayed ([balance],
    [recentDeposits], [copied]) and the busy flags are left out. What
    [/api/deposits/recent] and [/api/paysolutions/create-payment] answer
    are parameters. The request to [/api/verify-slip] is taken to reach
    the handler, which runs in the session and the store given to
    [handleDeposit]. The numbers of the page are doubles: what [Number]
    makes of the amount text and of the tier's [dailyLimit], and the state
    [todayDeposits]. *)

Module DepositPage.

(** [Number(depositLimit.dailyLimit)] *)
Definition dailyLimit (limit : DepositLimit) : float :=
  Number (dl_dailyLimit limit).

(** The text of the amount input with the double that [Number] makes of it
    when it is not empty, [NaN] for a text that is no number. *)
Record AmountInput := { text : string; number : float }.

(** [Number(amount)]: the empty text is [0]. *)
Definition Number (amount : AmountInput) : float :=
  if String.eqb (text amount) "" then 0%float else number amount.

Definition blank : AmountInput := {| text := ""; number := 0%float |}.

Record State := {
  amount : AmountInput;
  selectedMethod : option string;
  selectedFile : option File;
  depositLimit : option DepositLimit;
  todayDeposits : float
}.

Inductive ToastText :=
| Text (s : string)
| ServerDetails (details : option Details).

Inductive Toast :=
| toast_error (t : ToastText)
| toast_success (t : ToastText).

(** [selectedMethod === method] *)
Definition method_is (st : State) (method : string) : bool :=
  match selectedMethod st with
  | Some m => String.eqb m method
  | None => false
  end.

Definition set_selectedFile (file : File) (st : State) : State := {|
  amount := amount st;
  selectedMethod := selectedMethod st;
  selectedFile := Some file;
  depositLimit := depositLimit st;
  todayDeposits := todayDeposits st
|}.

(** [handleFileChange] on the files of the input. *)
Definition handleFileChange (files : list File) (st : State) : State * list Toast :=
  match files with
  | [] => (st, [])
  | file :: _ =>
      if file_size file >? 10 * 1024 * 1024
      then (st, [toast_error (Text "ขนาดไฟล์ต้องไม่เกิน 10MB")])
      else if negb (String.prefix "image/" (file_type file))
      then (st, [toast_error (Text "กรุณาอัพโหลดไฟล์รูปภาพเท่านั้น")])
      else (set_selectedFile file st, [])
  end.

(** [const remainingDailyLimit], [const canDeposit], [const showLimitError] *)
Definition remainingDailyLimit (st : State) : float :=
  match depositLimit st with
  | Some limit => (dailyLimit limit - todayDeposits st)%float
  | None => 0%float
  end.

Definition canDeposit (st : State) : bool :=
  match depositLimit st with
  | Some _ =>
      negb (truthy_string (text (amount st))) ||
      ((0 <? Number (amount st))%float &&
       (Number (amount st) <=? remainingDailyLimit st)%float)
  | None => false
  end.

Definition showLimitError (st : State) : bool :=
  truthy_string (text (amount st)) &&
  (0 <? Number (amount st))%float &&
  negb (canDeposit st).

(** What the page has sent. *)
Inductive Sent :=
| SentNothing
| SentSlip (body : FormData)
| SentCard (amount : float).

(** The refresh after a verified slip: today's total as recomputed from
    [/api/deposits/recent] when that response is ok, and whether one of the
    two refresh calls throws. *)
Record Refresh := { todayTotal : option float; throws : bool }.

Record Result := {
  state : State;
  toasts : list Toast;
  sent : Sent;
  redirect : option string;
  server : Store
}.

Definition incomplete : string := "กรุณากรอกข้อมูลให้ครบถ้วน".
Definition invalid_amount : string := "กรุณากรอกจำนวนเงินที่ถูกต้อง".
Definition over_limit : string := "ไม่สามารถเพิ่มเงินได้ เนื่องจากเกินวงเงินที่กำหนด".
Definition slip_used_text : string := "สลิปถูกใช้ไปแล้ว".
Definition verified : string := "ยืนยันสลิปสำเร็จ".
Definition invalid_slip_text : string := "สลิปไม่ถูกต้อง".
Definition failed : string := "ไม่สามารถดำเนินการได้".

(** A [return] before anything is sent. *)
Definition refuse (st : State) (s : Store) (message : string) : Result :=
  {| state := st; toasts := [toast_error (Text message)];
     sent := SentNothing; redirect := None; server := s |}.

(** [response.ok] *)
Definition ok (resp : Response) : bool :=
  (200 <=? http_status resp) && (http_status resp <=? 299).

(** The form after a verified slip, with the refreshed total. *)
Definition reset (st : State) (today : option float) : State := {|
  amount := blank;
  selectedMethod := None;
  selectedFile := None;
  depositLimit := depositLimit st;
  todayDeposits := match today with Some t => t | None => todayDeposits st end
|}.

(** The [bank] branch of the [try] block. *)
Definition submit_slip (refresh : Store -> Refresh) (env : Env) (s : Store)
    (st : State) : Result :=
  let formData : FormData :=
    [ ("slip", match selectedFile st with
               | Some file => FormFile file
               | None => FormString "null"
               end);
      ("amount", FormString (text (amount st))) ] in
  let (outcome, w) := POST (with_formData env formData) (start s) in
  let result toasts st' :=
    {| state := st'; toasts := toasts; sent := SentSlip formData;
       redirect := None; server := store w |} in
  match outcome with
  | Thrown _ => result [toast_error (Text failed)] st
  | Returned data =>
      if negb (ok data) then
        if String.eqb (body_message data) "slip_already_used"
        then result [toast_error (Text slip_used_text)] st
        else if String.eqb (body_message data) "deposit_limit_exceeded"
        then result [toast_error (ServerDetails (body_details data))] st
        else result [toast_error (Text failed)] st
      else if body_status data =? 200 then
        let refreshed := refresh (store w) in
        result (toast_success (Text verified) ::
                if throws refreshed then [toast_error (Text failed)] else [])
               (reset st (todayTotal refreshed))
      else
        result [toast_error (Text (if truthy_string (body_message data)
                                   then body_message data
                                   else invalid_slip_text))] st
  end.

(** The [card] branch: [createPayment] gives the payment URL, or nothing
    when the call fails. *)
Definition submit_card (createPayment : float -> option string) (s : Store)
    (st : State) (amountNum : float) : Result :=
  match createPayment amountNum with
  | Some webPaymentUrl =>
      {| state := st; toasts := []; sent := SentCard amountNum;
         redirect := Some webPaymentUrl; server := s |}
  | None =>
      {| state := st; toasts := [toast_error (Text failed)];
         sent := SentCard amountNum; redirect := None; server := s |}
  end.

Definition handleDeposit (createPayment : float -> option string)
    (refresh : Store -> Refresh) (env : Env) (s : Store) (st : State) : Result :=
  if method_is st "bank" &&
     (match selectedFile st with None => true | Some _ => false end
      || negb (truthy_string (text (amount st))))
  then refuse st s incomplete
  else
    let amountNum := Number (amount st) in
    if is_nan amountNum || (amountNum <=? 0)%float
    then refuse st s invalid_amount
    else if match depositLimit st with
            | Some limit =>
                (dailyLimit limit - todayDeposits st <? amountNum)%float
            | None => false
            end
    then refuse st s over_limit
    else if method_is st "bank" then submit_slip refresh env s st
    else if method_is st "card" then submit_card createPayment s st amountNum
    else {| state := st; toasts := []; sent := SentNothing;
            redirect := None; server := s |}.

End DepositPage.

(** The file passes the checks of [handleFileChange]. *)
Definition acceptable (file : File) : Prop :=
  file_size file <= 10485760 /\ String.prefix "image/" (file_type file) = true.

(** The multipart body that [handleDeposit] builds for a slip. *)
Definition slip_body (st : DepositPage.State) : FormData :=
  [ ("slip", match DepositPage.selectedFile st with
             | Some file => FormFile file
             | None => FormString "null"
             end);
    ("amount", FormString (DepositPage.text (DepositPage.amount st))) ].


(** The messages a request can get once its file has passed the local
    checks. *)
Definition later_messages : list string :=
  [ "invalid_slip"; "invalid_receiver"; "slip_already_used";
    "deposit_limit_exceeded"; "success"; "server_error" ].

Module PageSample.

(** The form filled in for a bank transfer of 20.00 by a user who has
    deposited 480.00 of 500.00 today. *)
Definition filled (file : option File) : DepositPage.State := {|
  DepositPage.amount :=
    {| DepositPage.text := "20.00"; DepositPage.number := Number 2000 |};
  DepositPage.selectedMethod := Some "bank";
  DepositPage.selectedFile := file;
  DepositPage.depositLimit := Some Scenario.level1;
  DepositPage.todayDeposits := Number 48000
|}.

(** The form of a user on the tier of 50000.00 who has deposited 48000.01
    today and types 1999.99, the decimal that is left. *)
Definition rest_of_limit (method : string) : DepositPage.State := {|
  DepositPage.amount :=
    {| DepositPage.text := "1999.99"; DepositPage.number := Number 199999 |};
  DepositPage.selectedMethod := Some method;
  DepositPage.selectedFile := Some Sample.png;
  DepositPage.depositLimit := Some (Scenario.tier 5000000);
  DepositPage.todayDeposits := Number 4800001
|}.

Definition refresh (s : Store) : DepositPage.Refresh :=
  {| DepositPage.todayTotal :=
       Some (Number (select_dailyTotal s 1 (Sample.setHours0 Sample.ten_am)));
     DepositPage.throws := false |}.

Definition createPayment (amount : float) : option string :=
  Some "https://payment.example/pay".

End PageSample.

(** The toast for an answer that is not ok. *)
Definition failure_toast (data : Response) : DepositPage.ToastText :=
  if String.eqb (body_message data) "slip_already_used"
  then DepositPage.Text DepositPage.slip_used_text
  else if String.eqb (body_message data) "deposit_limit_exceeded"
  then DepositPage.ServerDetails (body_details data)
  else DepositPage.Text DepositPage.failed.

(** ** The price list ([GoldPrices]) *)

Module GoldPrices.

(** A quote as it arrives, a string or a number; it is never read by the
    code modelled here. *)
Inductive Quote :=
| QuoteString (s : string)
| QuoteNumber (literal : string).

Record GoldPrice := {
  name : string;
  bid : Quote;
  ask : Quote;
  diff : Quote
}.

Record ProductSettings := {
  id : Z;
  setting_name : string;
  isActive : bool
}.

(** [GOLD_TYPES[key]]. A key the table does not have gives [undefined];
    a key inherited from [Object.prototype] gives a value that is no
    string and equals no setting name, which ends the same way. *)
Definition GOLD_TYPES (key : string) : option string :=
  if String.eqb key "สมาคมฯ" then Some "ทองสมาคม 96.5%"
  else if String.eqb key "99.99%" then Some "ทอง 99.99%"
  else None.

(** The callback of [prices.filter] in [filterPricesWithSettings]. *)
Definition kept (settings : list ProductSettings) (price : GoldPrice) : bool :=
  match GOLD_TYPES (name price) with
  | None => false
  | Some goldType =>
      match find (fun s => String.eqb (setting_name s) goldType) settings with
      | Some setting => isActive setting
      | None => false
      end
  end.

Definition filterPricesWithSettings (prices : list GoldPrice)
    (settings : list ProductSettings) : list GoldPrice :=
  filter (kept settings) prices.

(** The callback of [prices.map] in the rendering: [false] where it returns
    [null], [true] where it returns a card. *)
Definition renders (productSettings : list ProductSettings) (price : GoldPrice) : bool :=
  match GOLD_TYPES (name price) with
  | None => false
  | Some goldType =>
      let productSetting :=
        find (fun setting => String.eqb (setting_name setting) goldType)
             productSettings in
      if negb (match productSetting with
               | Some setting => isActive setting
               | None => false
               end)
      then false
      else true
  end.

(** The [settings-update] handler on the prices:
    [setPrices(prevPrices => filterPricesWithSettings(prevPrices, data.settings))]. *)
Definition settings_update (settings : list ProductSettings)
    (prevPrices : list GoldPrice) : list GoldPrice :=
  filterPricesWithSettings prevPrices settings.

End GoldPrices.

(** * Properties of the embedding *)

(** ** The order of doubles *)

Lemma SFcompare_antisym x y :
  SFcompare y x = option_map CompOpp (SFcompare x y).
Proof.
  destruct x as [sx|sx| |sx mx ex], y as [sy|sy| |sy my ey];
    try destruct sx; try destruct sy; try reflexivity;
    cbn [SFcompare option_map];
    rewrite (Z.compare_antisym ey ex);
    destruct (ey ?= ex); cbn [CompOpp]; try reflexivity;
    rewrite (Pos.compare_cont_antisym mx my Eq); reflexivity.
Qed.

Lemma SFcompare_None x y :
  SFcompare x y = None <-> x = S754_nan \/ y = S754_nan.
Proof.
  destruct x as [sx|sx| |sx mx ex], y as [sy|sy| |sy my ey]; cbn;
    split; try discriminate; try tauto; intros [H|H]; discriminate.
Qed.

Lemma is_nan_spec (x : float) : is_nan x = false <-> Prim2SF x <> S754_nan.
Proof.
  unfold is_nan. rewrite eqb_spec. unfold SFeqb.
  pose proof (SFcompare_antisym (Prim2SF x) (Prim2SF x)) as H.
  destruct (Prim2SF x) as [s|s| |s m e].
  - cbn. split; [discriminate|reflexivity].
  - destruct s; cbn; (split; [discriminate|reflexivity]).
  - cbn. split; [discriminate|]. intros Hn. now contradiction Hn.
  - destruct (SFcompare (S754_finite s m e) (S754_finite s m e)) as [[]|] eqn:C;
      cbn in *; try discriminate; split; try discriminate; try reflexivity.
    all: destruct s; cbn in C; discriminate.
Qed.

(** [x < y] excludes [y <= x]. *)
Lemma ltb_leb_false (x y : float) :
  (x <? y)%float = true -> (y <=? x)%float = false.
Proof.
  rewrite ltb_spec, leb_spec. unfold SFltb, SFleb.
  rewrite (SFcompare_antisym (Prim2SF x) (Prim2SF y)).
  destruct (SFcompare (Prim2SF x) (Prim2SF y)) as [[]|]; cbn; congruence.
Qed.

(** Only numbers are compared. *)
Lemma ltb_not_nan (x y : float) :
  (x <? y)%float = true -> is_nan x = false /\ is_nan y = false.
Proof.
  rewrite ltb_spec. unfold SFltb. intros H.
  rewrite !is_nan_spec. split; intros Hn; rewrite Hn in H.
  - cbn in H. discriminate.
  - destruct (Prim2SF x); cbn in H; discriminate.
Qed.

(** Two numbers are ordered one way or the other. *)
Lemma leb_false_ltb (x y : float) :
  is_nan x = false -> is_nan y = false ->
  (y <=? x)%float = false -> (x <? y)%float = true.
Proof.
  rewrite !is_nan_spec, ltb_spec, leb_spec. unfold SFltb, SFleb.
  intros Hx Hy.
  rewrite (SFcompare_antisym (Prim2SF x) (Prim2SF y)).
  destruct (SFcompare (Prim2SF x) (Prim2SF y)) as [[]|] eqn:C; cbn; try congruence.
  apply SFcompare_None in C. tauto.
Qed.

(** [Number] on some decimals, against the doubles that JavaScript prints
    for them and for their sums and differences. *)
#[local] Set Warnings "-inexact-float".

Lemma Number_of_decimals :
  Number 110 = 1.1%float /\ Number 220 = 2.2%float /\ Number 330 = 3.3%float /\
  (Number 110 + Number 220)%float = 3.3000000000000003%float /\
  Number 5000000 = 50000%float /\ Number 4800001 = 48000.01%float /\
  Number 199999 = 1999.99%float /\
  (Number 5000000 - Number 4800001)%float = 1999.989999999998%float /\
  Number 844190 = 8441.9%float /\ Number 2080040 = 20800.4%float /\
  Number 2924230 = 29242.3%float /\
  (Number 844190 + Number 2080040)%float = 29242.300000000003%float /\
  (Number 2924230 - Number 844190)%float = 20800.4%float.
Proof. repeat split. Qed.

#[local] Set Warnings "+inexact-float".

(** [isNaN(n) || n <= 0] fails exactly for a number above zero. *)
Lemma above_zero (n : float) :
  is_nan n || (n <=? 0)%float = false <-> (0 <? n)%float = true.
Proof.
  rewrite orb_false_iff. split.
  - intros [Hn Hle]. now apply leb_false_ltb.
  - intros H. split; [apply (ltb_not_nan _ _ H) | now apply ltb_leb_false].
Qed.

(** ** The handler *)

Lemma log_log a b w : log b (log a w) = log (a ++ b) w.
Proof. unfold log; simpl. now rewrite app_assoc. Qed.

Lemma store_log evs w : store (log evs w) = store w.
Proof. reflexivity. Qed.

Lemma first_of_filter {A} (f : A -> bool) (l : list A) :
  Nat.ltb 0 (List.length (firstn 1 (filter f l))) = existsb f l.
Proof.
  induction l as [|x l IH]; simpl; [reflexivity|].
  destruct (f x); simpl; [reflexivity|exact IH].
Qed.

Lemma slip_used_recorded s r : slip_used s r = true <-> recorded s r.
Proof.
  unfold slip_used, recorded. rewrite existsb_exists.
  split; intros [p [Hin Hp]]; exists p; split; trivial.
  - now apply String.eqb_eq.
  - now apply String.eqb_eq.
Qed.

Lemma slip_unused s r : ~ recorded s r -> slip_used s r = false.
Proof.
  intros H. destruct (slip_used s r) eqn:E; [|reflexivity].
  exfalso. apply H. now apply slip_used_recorded.
Qed.

Lemma checkSlipAlreadyUsed_run r w :
  checkSlipAlreadyUsed r w = (Returned (slip_used (store w) r), log [EvSelectSlip r] w).
Proof.
  unfold checkSlipAlreadyUsed, bind, emit, read_store, ret, slip_used,
    select_paymentTransactions_by_transRef.
  cbv beta iota. now rewrite first_of_filter.
Qed.

Lemma filter_find {A} (f : A -> bool) (l : list A) :
  filter f l = match find f l with
               | Some x => x :: tl (filter f l)
               | None => []
               end.
Proof.
  induction l as [|x l IH]; simpl; [reflexivity|].
  destruct (f x); simpl; [reflexivity|exact IH].
Qed.

(** The join of the query is the tier of the user's first row. *)
Lemma select_user_depositLimit_tier s uid :
  select_user_depositLimit s uid =
  match user_tier s uid with
  | None => []
  | Some t => [t]
  end.
Proof.
  unfold select_user_depositLimit, user_tier.
  rewrite filter_find.
  destruct (find (fun u => users_id u =? uid) (users s)) as [row|]; [|reflexivity].
  simpl. unfold leftJoin_depositLimits at 1.
  destruct (users_depositLimitId row) as [i|]; [|reflexivity].
  rewrite filter_find.
  destruct (find (fun d => dl_id d =? i) (depositLimits s)); reflexivity.
Qed.

Lemma has_no_tier_user_tier s uid : has_no_tier s uid -> user_tier s uid = Some None.
Proof.
  intros [row [Hrow Hnull]]. unfold user_tier. now rewrite Hrow, Hnull.
Qed.

Lemma checkDepositLimits_run env uid a w :
  checkDepositLimits env uid a w =
  match user_tier (store w) uid with
  | None => (Thrown TypeError, log [EvSelectUserLimit uid] w)
  | Some None =>
      (Returned {| allowed := false; check_message := Some NoDepositLimitSet |},
       log [EvSelectUserLimit uid] w)
  | Some (Some d) =>
      (Returned (limit_verdict (todayTotal env (store w) uid) a (dl_dailyLimit d)),
       log [EvSelectUserLimit uid; EvSelectDailyTotal uid] w)
  end.
Proof.
  unfold checkDepositLimits, bind, emit, read_store; simpl.
  rewrite select_user_depositLimit_tier.
  destruct (user_tier (store w) uid) as [[d|]|]; try reflexivity.
  unfold bind, limit_verdict, exceeds, todayTotal, log, ret; cbn [store trace].
  rewrite <- app_assoc; cbn [app].
  destruct (_ <? _)%float; reflexivity.
Qed.

Lemma recordVerifiedSlip_run env r a uid w :
  uid <> 0 ->
  recordVerifiedSlip env r a (Some uid) w =
  match storeFault env with
  | None =>
      (Returned tt,
       {| store := settled env r a uid (store w);
          trace := trace w ++ [EvBegin; EvInsertPayment r a; EvUpdateBalance uid a; EvCommit] |})
  | Some AtInsert => (Thrown StoreError, log [EvBegin; EvRollback] w)
  | Some AtUpdate =>
      (Thrown StoreError, log [EvBegin; EvInsertPayment r a; EvRollback] w)
  | Some AtCommit =>
      (Thrown StoreError,
       log [EvBegin; EvInsertPayment r a; EvUpdateBalance uid a; EvRollback] w)
  end.
Proof.
  intros Huid. unfold recordVerifiedSlip, truthy_number.
  apply Z.eqb_neq in Huid. rewrite Huid. simpl.
  destruct (storeFault env) as [[]|];
    unfold transaction, tx_insert, tx_update_balance, bind, emit, read_store,
      write_store, throw, log, settled; simpl;
    rewrite <- ?app_assoc; reflexivity.
Qed.

Lemma recordVerifiedSlip_null env r a w :
  recordVerifiedSlip env r a None w = (Thrown (ErrorMessage "User ID is required"), w).
Proof. reflexivity. Qed.

Lemma recordVerifiedSlip_zero env r a w :
  recordVerifiedSlip env r a (Some 0) w = (Thrown (ErrorMessage "User ID is required"), w).
Proof. reflexivity. Qed.

Lemma truthy_nonempty r : r <> "" -> truthy_string r = true.
Proof.
  intros H. unfold truthy_string. destruct (String.eqb r "") eqn:E; [|reflexivity].
  apply String.eqb_eq in E. contradiction.
Qed.

Lemma POST_try_verified env file data sd w :
  slip_verifies env file data sd ->
  POST_try env w =
  if validateReceiver data
  then settle env sd (log [EvFetch (file_bytes file)] w)
  else (Returned invalid_receiver, log [EvFetch (file_bytes file)] w).
Proof.
  intros (Hget & Hsize & Htype & Hfetch & Hdata).
  unfold POST_try. rewrite Hget.
  assert (Hle : (file_size file >? maxFileSize) = false)
    by (rewrite Z.gtb_ltb; now apply Z.ltb_ge).
  rewrite Hle, Htype. cbn [negb].
  unfold bind at 1. unfold emit at 1. cbv beta iota.
  rewrite Hfetch, Hdata.
  destruct (validateReceiver data); reflexivity.
Qed.

Lemma settle_bears env sd r a w :
  EasySlip.transRef sd = Some r -> r <> "" ->
  EasySlip.amount (EasySlip.data_amount sd) = a ->
  settle env sd w =
  if slip_used (store w) r
  then (Returned slip_already_used, log [EvSelectSlip r] w)
  else
    match getUser env with
    | Some u =>
        (depositCheck <- checkDepositLimits env (id u) a ;;
         if negb (allowed depositCheck)
         then ret (json 400 "deposit_limit_exceeded"
                     (option_map DetailsLimit (check_message depositCheck)) 400)
         else record_and_notify env r a) (log [EvSelectSlip r] w)
    | None => record_and_notify env r a (log [EvSelectSlip r] w)
    end.
Proof.
  intros Hr Hne Ha. unfold settle. rewrite Hr, (truthy_nonempty _ Hne), Ha.
  unfold bind at 1. rewrite checkSlipAlreadyUsed_run.
  destruct (slip_used (store w) r); [reflexivity|].
  destruct (getUser env); reflexivity.
Qed.

(** Settlement and notification for a session user with a usable id. *)
Lemma record_and_notify_run env u r a w :
  getUser env = Some u -> id u <> 0 ->
  record_and_notify env r a w =
  match storeFault env with
  | None =>
      let w' := {| store := settled env r a (id u) (store w);
                   trace := trace w ++ [EvBegin; EvInsertPayment r a;
                                        EvUpdateBalance (id u) a; EvCommit;
                                        EvNotify (user_display u) a r] |} in
      if sendDepositNotification env (notification u r a)
      then (Returned success, w')
      else (Thrown NotificationError, w')
  | Some AtInsert => (Thrown StoreError, log [EvBegin; EvRollback] w)
  | Some AtUpdate =>
      (Thrown StoreError, log [EvBegin; EvInsertPayment r a; EvRollback] w)
  | Some AtCommit =>
      (Thrown StoreError,
       log [EvBegin; EvInsertPayment r a; EvUpdateBalance (id u) a; EvRollback] w)
  end.
Proof.
  intros Hu Hid. unfold record_and_notify. rewrite Hu.
  unfold user_id_or_null, truthy_number.
  rewrite (proj2 (Z.eqb_neq _ _) Hid). cbn [negb].
  unfold bind at 1. rewrite (recordVerifiedSlip_run _ _ _ _ _ Hid).
  destruct (storeFault env) as [[]|]; try reflexivity.
  unfold bind, emit, notification; simpl. rewrite <- app_assoc. simpl.
  destruct (sendDepositNotification env _); reflexivity.
Qed.

(** Without a usable user id the settlement throws before any store access. *)
Lemma record_and_notify_null env r a w :
  user_id_or_null (getUser env) = None ->
  record_and_notify env r a w = (Thrown (ErrorMessage "User ID is required"), w).
Proof.
  intros H. unfold record_and_notify. rewrite H. reflexivity.
Qed.

Lemma read_only_cons ev evs : is_write ev = false -> read_only evs -> read_only (ev :: evs).
Proof. intros H1 H2 e [<-|Hin]; auto. Qed.

Lemma read_only_nil : read_only [].
Proof. intros e []. Qed.

Create HintDb handler.
#[local] Hint Resolve read_only_cons read_only_nil : handler.
#[local] Hint Extern 1 (is_write _ = false) => reflexivity : handler.
#[local] Hint Extern 1 (In _ rejection_messages) => (simpl; tauto) : handler.

(** The trace of the world left is the trace at the start followed by the
    events of the request. *)
Ltac trace_eq :=
  cbn [log store trace]; rewrite <- ?app_assoc; cbn [app];
  first [ reflexivity | symmetry; apply app_nil_r ].

Ltac responds := do 2 eexists; split; [reflexivity|].

Ltac rejected :=
  responds;
  eapply Handled_rejected;
  [ reflexivity | auto with handler | reflexivity | trace_eq | auto 10 with handler ].

Ltac skipped :=
  responds;
  eapply Handled_skipped;
  [ reflexivity | reflexivity | trace_eq | auto 10 with handler ].

Ltac failed :=
  responds;
  eapply Handled_failed; [ reflexivity | reflexivity | trace_eq ].

Lemma record_and_notify_handled env r a evs w :
  (exists file data sd, Bears env file data sd r a) ->
  slip_used (store w) r = false ->
  (forall u, getUser env = Some u ->
     exists d, user_tier (store w) (id u) = Some (Some d) /\
               exceeds (todayTotal env (store w) (id u)) a (dl_dailyLimit d) = false) ->
  exists resp w',
    try_catch (record_and_notify env r a) catch_all (log evs w) = (Returned resp, w') /\
    Handled env w resp w'.
Proof.
  intros Hbears Hfresh Htier. unfold try_catch.
  destruct (getUser env) as [u|] eqn:Hu.
  - destruct (Z.eq_dec (id u) 0) as [Hz|Hnz].
    + rewrite record_and_notify_null
        by (rewrite Hu; unfold user_id_or_null, truthy_number; now rewrite Hz).
      failed.
    + rewrite (record_and_notify_run _ _ _ _ _ Hu Hnz).
      destruct (storeFault env) as [[]|] eqn:Hfault; try failed.
      cbv zeta.
      destruct (sendDepositNotification env (notification u r a)) eqn:Hn;
        responds;
        (eapply (Handled_settled _ _ _ _ u r a);
         [ now rewrite Hn | reflexivity | trace_eq | auto .. ]).
  - rewrite record_and_notify_null by (now rewrite Hu).
    failed.
Qed.

Lemma read_only_app evs evs' : read_only evs -> read_only evs' -> read_only (evs ++ evs').
Proof.
  intros H H' ev Hin. apply in_app_or in Hin. destruct Hin; auto.
Qed.

#[local] Hint Resolve read_only_app : handler.

Lemma limit_verdict_allowed T a L :
  allowed (limit_verdict T a L) = negb (exceeds T a L).
Proof. unfold limit_verdict. destruct (exceeds T a L); reflexivity. Qed.

Lemma settle_handled env file data sd evs w :
  slip_verifies env file data sd -> validateReceiver data = true ->
  read_only evs ->
  exists resp w',
    try_catch (settle env sd) catch_all (log evs w) = (Returned resp, w') /\
    Handled env w resp w'.
Proof.
  intros Hv Hrecv Hro.
  destruct (EasySlip.transRef sd) as [r|] eqn:Hr;
    [ destruct (String.eqb r "") eqn:Hempty | ].
  - unfold try_catch, settle, truthy_string. rewrite Hr, Hempty. skipped.
  - assert (Hne : r <> "") by (intros ->; discriminate).
    unfold try_catch. rewrite (settle_bears env sd r _ _ Hr Hne eq_refl).
    cbn [log store].
    destruct (slip_used (store w) r) eqn:Hused; [rejected|].
    set (a := EasySlip.amount (EasySlip.data_amount sd)).
    assert (Hbears : exists file data sd, Bears env file data sd r a)
      by (exists file, data, sd; now constructor).
    destruct (getUser env) as [u|] eqn:Hu.
    + unfold bind at 1. rewrite checkDepositLimits_run. cbn [log store].
      destruct (user_tier (store w) (id u)) as [[d|]|] eqn:Htier;
        [ | rejected | failed ].
      rewrite limit_verdict_allowed, negb_involutive.
      destruct (exceeds (todayTotal env (store w) (id u)) a (dl_dailyLimit d)) eqn:Hgt;
        [rejected|].
      rewrite !log_log.
      apply (record_and_notify_handled env r a); [exact Hbears|exact Hused|].
      intros u' Hu'. rewrite Hu in Hu'. injection Hu' as <-.
      exists d. split; [exact Htier|exact Hgt].
    + rewrite log_log.
      apply (record_and_notify_handled env r a); [exact Hbears|exact Hused|].
      intros u' Hu'. rewrite Hu in Hu'. discriminate.
  - unfold try_catch, settle. rewrite Hr. skipped.
Qed.

(** The handler always responds, in one of the four ways of [Handled]. *)
Lemma POST_handled env w :
  exists resp w', POST env w = (Returned resp, w') /\ Handled env w resp w'.
Proof.
  unfold POST.
  destruct (formData_get "slip" (request_formData env)) as [[s|file]|] eqn:Hget.
  - unfold try_catch, POST_try. rewrite Hget.
    destruct (truthy_string s); cbn [negb]; [failed|rejected].
  - destruct (file_size file >? maxFileSize) eqn:Hsize;
      [ unfold try_catch, POST_try; rewrite Hget, Hsize; rejected | ].
    destruct (String.prefix "image/" (file_type file)) eqn:Htype;
      [ | unfold try_catch, POST_try; rewrite Hget, Hsize, Htype; rejected ].
    destruct (easyslip env (file_bytes file)) as [|[] [|data]] eqn:Hfetch;
      try (unfold try_catch, POST_try, bind, emit;
           rewrite Hget, Hsize, Htype, Hfetch; cbn [negb];
           first [failed | rejected]).
    destruct (EasySlip.data data) as [sd|] eqn:Hdata;
      [ | unfold try_catch, POST_try, bind, emit;
          rewrite Hget, Hsize, Htype, Hfetch, Hdata; cbn [negb]; rejected ].
    assert (Hv : slip_verifies env file data sd).
    { repeat split; auto. rewrite Z.gtb_ltb in Hsize. now apply Z.ltb_ge. }
    destruct (validateReceiver data) eqn:Hrecv.
    + destruct (settle_handled env file data sd [EvFetch (file_bytes file)] w)
        as (resp & w' & Hrun & Hh); [auto with handler ..|].
      exists resp, w'. split; [|exact Hh].
      unfold try_catch in *. rewrite (POST_try_verified _ _ _ _ _ Hv), Hrecv.
      exact Hrun.
    + unfold try_catch. rewrite (POST_try_verified _ _ _ _ _ Hv), Hrecv. rejected.
  - unfold try_catch, POST_try. rewrite Hget. rejected.
Qed.

(** *** Consequences for the store *)

Lemma POST_responds env w : exists resp, fst (POST env w) = Returned resp.
Proof.
  destruct (POST_handled env w) as (resp & w' & H & _).
  exists resp. now rewrite H.
Qed.

(** A request leaves the store as it was or settles one deposit. *)
Lemma store_after_cases env s :
  store_after env s = s \/
  exists u r a,
    getUser env = Some u /\
    (exists file data sd, Bears env file data sd r a) /\
    store_after env s = settled env r a (id u) s.
Proof.
  unfold store_after.
  destruct (POST_handled env (start s)) as (resp & w' & H & Hh).
  rewrite H; cbn [snd].
  destruct Hh as [ ? ? ? _ _ Hs _ _ | ? _ Hs _ _ | ? _ Hs _ | u r a ? _ Hs _ Hu _ _ _ _ Hb ];
    auto.
  right. exists u, r, a. auto.
Qed.

(** Payment rows are never removed. *)
Lemma recorded_store_after env s r : recorded s r -> recorded (store_after env s) r.
Proof.
  intros (p & Hin & Hp).
  destruct (store_after_cases env s) as [-> | (u & r' & a & _ & _ & ->)].
  - exists p; auto.
  - exists p. split; [|exact Hp].
    unfold settled, update_balance, insert_payment; cbn [paymentTransactions].
    apply in_or_app; auto.
Qed.

Lemma recorded_run_requests envs : forall s r,
  recorded s r -> recorded (run_requests envs s) r.
Proof.
  induction envs as [|env envs IH]; intros s r H; cbn [run_requests]; [exact H|].
  apply IH. now apply recorded_store_after.
Qed.

(** Brings both worlds of an equation to the form [trace w ++ events]. *)
Ltac same_world :=
  unfold catch_all, bind, emit, ret, log; cbn [store trace];
  rewrite <- ?app_assoc; cbn [app].

Section Bearing.

Variables (env : Env) (file : File) (data : EasySlip.Response)
          (sd : EasySlip.Data) (r : string) (a : Z).
Hypothesis bears : Bears env file data sd r a.

Lemma POST_bears w :
  POST env w =
  try_catch
    (fun w1 =>
       if slip_used (store w) r
       then (Returned slip_already_used, w1)
       else
         match getUser env with
         | Some u =>
             (depositCheck <- checkDepositLimits env (id u) a ;;
              if negb (allowed depositCheck)
              then ret (json 400 "deposit_limit_exceeded"
                          (option_map DetailsLimit (check_message depositCheck)) 400)
              else record_and_notify env r a) w1
         | None => record_and_notify env r a w1
         end)
    catch_all
    (log [EvFetch (file_bytes file); EvSelectSlip r] w).
Proof.
  destruct bears as [Hv Hrecv Hr Hne Ha].
  unfold POST, try_catch.
  rewrite (POST_try_verified _ _ _ _ _ Hv), Hrecv.
  rewrite (settle_bears _ _ _ _ _ Hr Hne Ha). rewrite log_log. cbn [app log store].
  reflexivity.
Qed.

Lemma POST_duplicate w :
  recorded (store w) r ->
  POST env w =
  (Returned slip_already_used, log [EvFetch (file_bytes file); EvSelectSlip r] w).
Proof.
  intros Hrec. rewrite POST_bears. unfold try_catch.
  now rewrite (proj2 (slip_used_recorded _ _) Hrec).
Qed.

Lemma POST_anonymous w :
  getUser env = None -> ~ recorded (store w) r ->
  POST env w =
  (Returned server_error,
   log [EvFetch (file_bytes file); EvSelectSlip r;
        EvConsoleError "Error verifying slip:"] w).
Proof.
  intros Hu Hfresh. rewrite POST_bears. unfold try_catch.
  rewrite (slip_unused _ _ Hfresh), Hu.
  rewrite record_and_notify_null by (now rewrite Hu).
  now same_world.
Qed.

Lemma POST_no_tier u w :
  getUser env = Some u -> user_tier (store w) (id u) = Some None ->
  ~ recorded (store w) r ->
  POST env w =
  (Returned (deposit_limit_exceeded NoDepositLimitSet),
   log [EvFetch (file_bytes file); EvSelectSlip r; EvSelectUserLimit (id u)] w).
Proof.
  intros Hu Htier Hfresh. rewrite POST_bears. unfold try_catch.
  rewrite (slip_unused _ _ Hfresh), Hu.
  unfold bind at 1. rewrite checkDepositLimits_run. cbn [log store].
  rewrite Htier. cbn [allowed negb check_message option_map].
  now same_world.
Qed.

Lemma POST_over_limit u d w :
  getUser env = Some u -> user_tier (store w) (id u) = Some (Some d) ->
  ~ recorded (store w) r ->
  exceeds (todayTotal env (store w) (id u)) a (dl_dailyLimit d) = true ->
  POST env w =
  (Returned (deposit_limit_exceeded (WouldExceedDailyLimit (dl_dailyLimit d))),
   log [EvFetch (file_bytes file); EvSelectSlip r;
        EvSelectUserLimit (id u); EvSelectDailyTotal (id u)] w).
Proof.
  intros Hu Htier Hfresh Hgt. rewrite POST_bears. unfold try_catch.
  rewrite (slip_unused _ _ Hfresh), Hu.
  unfold bind at 1. rewrite checkDepositLimits_run. cbn [log store].
  rewrite Htier. unfold limit_verdict. rewrite Hgt.
  cbn [allowed negb check_message option_map].
  now same_world.
Qed.

Lemma POST_within_limit u d w :
  getUser env = Some u -> id u <> 0 ->
  user_tier (store w) (id u) = Some (Some d) ->
  ~ recorded (store w) r ->
  exceeds (todayTotal env (store w) (id u)) a (dl_dailyLimit d) = false ->
  POST env w =
  match storeFault env with
  | None =>
      if sendDepositNotification env (notification u r a)
      then (Returned success,
            {| store := settled env r a (id u) (store w);
               trace := trace w ++ settlement_events file r a u |})
      else (Returned server_error,
            {| store := settled env r a (id u) (store w);
               trace := trace w ++ settlement_events file r a u
                          ++ [EvConsoleError "Error verifying slip:"] |})
  | Some step => (Returned server_error, log (rollback_events file r a u step) w)
  end.
Proof.
  intros Hu Hid Htier Hfresh Hle. rewrite POST_bears. unfold try_catch.
  rewrite (slip_unused _ _ Hfresh), Hu.
  unfold bind at 1. rewrite checkDepositLimits_run. cbn [log store].
  rewrite Htier. unfold limit_verdict.
  rewrite Hle. cbn [allowed negb].
  rewrite (record_and_notify_run _ _ _ _ _ Hu Hid).
  unfold rollback_events, settlement_events.
  destruct (storeFault env) as [[]|]; try (now same_world).
  cbv zeta.
  destruct (sendDepositNotification env (notification u r a)); now same_world.
Qed.

End Bearing.

(** ** The settled store *)

Lemma find_credit uid a date v l :
  find (fun b => ub_userId b =? v) (map (credit uid a date) l) =
  option_map (credit uid a date) (find (fun b => ub_userId b =? v) l).
Proof.
  induction l as [|b l IH]; cbn [map find option_map]; [reflexivity|].
  assert (Hid : ub_userId (credit uid a date b) = ub_userId b)
    by (unfold credit; destruct (ub_userId b =? uid); reflexivity).
  rewrite Hid. destruct (ub_userId b =? v); [reflexivity|exact IH].
Qed.

Lemma balance_of_settled env r a uid s b :
  balance_of s uid = Some b ->
  balance_of (settled env r a uid s) uid = Some (b + a).
Proof.
  unfold balance_of, settled, update_balance; cbn [userBalances insert_payment].
  rewrite find_credit.
  destruct (find (fun b0 => ub_userId b0 =? uid) (userBalances s)) as [row|] eqn:Hf;
    [|discriminate].
  apply find_some in Hf. destruct Hf as [_ Hrow].
  cbn [option_map]. intros [= <-]. unfold credit. now rewrite Hrow.
Qed.

Lemma balance_of_settled_other env r a uid s v :
  v <> uid -> balance_of (settled env r a uid s) v = balance_of s v.
Proof.
  intros Hne.
  unfold balance_of, settled, update_balance; cbn [userBalances insert_payment].
  rewrite find_credit.
  destruct (find (fun b0 => ub_userId b0 =? v) (userBalances s)) as [row|] eqn:Hf;
    [|reflexivity].
  apply find_some in Hf. destruct Hf as [_ Hrow]. apply Z.eqb_eq in Hrow.
  cbn [option_map]. unfold credit.
  destruct (ub_userId row =? uid) eqn:E; [|reflexivity].
  apply Z.eqb_eq in E. congruence.
Qed.

Lemma sum_app l l' : sum (l ++ l') = sum l + sum l'.
Proof. induction l as [|x l IH]; cbn [app sum]; lia. Qed.


Lemma Bears_unique env file data sd r a file' data' sd' r' a' :
  Bears env file data sd r a -> Bears env file' data' sd' r' a' ->
  r = r' /\ a = a'.
Proof.
  intros [(Hget & _ & _ & Hfetch & Hdata) _ Hr _ Ha]
         [(Hget' & _ & _ & Hfetch' & Hdata') _ Hr' _ Ha'].
  rewrite Hget in Hget'. injection Hget' as <-.
  rewrite Hfetch in Hfetch'. injection Hfetch' as <-.
  rewrite Hdata in Hdata'. injection Hdata' as <-.
  rewrite Hr in Hr'. injection Hr' as <-. split; congruence.
Qed.

(** ** A submission within the limit *)

Section WithinLimit.

Variables (env : Env) (file : File) (data : EasySlip.Response)
          (sd : EasySlip.Data) (r : string) (a : Z) (u : User)
          (d : DepositLimit) (s : Store).
Hypothesis bears : Bears env file data sd r a.
Hypothesis session : getUser env = Some u.
Hypothesis usable_id : id u <> 0.
Hypothesis fresh : ~ recorded s r.
Hypothesis tier : user_tier s (id u) = Some (Some d).
Hypothesis within : exceeds (todayTotal env s (id u)) a (dl_dailyLimit d) = false.

Lemma store_after_within_limit :
  store_after env s =
  match storeFault env with
  | None => settled env r a (id u) s
  | Some _ => s
  end.
Proof.
  unfold store_after.
  rewrite (POST_within_limit env file data sd r a bears u d (start s)
             session usable_id tier fresh within).
  destruct (storeFault env); [reflexivity|].
  destruct (sendDepositNotification env _); reflexivity.
Qed.

Lemma response_within_limit :
  response_of env s =
  Returned
    match storeFault env with
    | None =>
        if sendDepositNotification env (notification u r a)
        then success else server_error
    | Some _ => server_error
    end.
Proof.
  unfold response_of.
  rewrite (POST_within_limit env file data sd r a bears u d (start s)
             session usable_id tier fresh within).
  destruct (storeFault env); [reflexivity|].
  destruct (sendDepositNotification env _); reflexivity.
Qed.

Lemma trace_within_limit :
  trace_of env s =
  match storeFault env with
  | None =>
      settlement_events file r a u ++
      (if sendDepositNotification env (notification u r a)
       then [] else [EvConsoleError "Error verifying slip:"])
  | Some step => rollback_events file r a u step
  end.
Proof.
  unfold trace_of.
  rewrite (POST_within_limit env file data sd r a bears u d (start s)
             session usable_id tier fresh within).
  destruct (storeFault env); [reflexivity|].
  destruct (sendDepositNotification env _); cbn [snd trace start app];
    [now rewrite app_nil_r | reflexivity].
Qed.

End WithinLimit.

(** ** The sample requests *)

Section ScenarioFacts.

Import Sample.

Lemma deposit_bears amt notified fault :
  Bears (Scenario.deposit amt notified fault) png
    (slip (Some merchant_account) (Some Scenario.r2) amt)
    (slip_data (Some merchant_account) (Some Scenario.r2) amt) Scenario.r2 amt.
Proof.
  constructor; try reflexivity; [|discriminate].
  repeat split; try reflexivity. vm_compute; discriminate.
Defined.

Lemma bob_bears r :
  r <> "" ->
  Bears (Scenario.bob_submits merchant_account (Some r)) png
    (slip (Some merchant_account) (Some r) 700)
    (slip_data (Some merchant_account) (Some r) 700) r 700.
Proof.
  intros Hr. constructor; try reflexivity; [|exact Hr].
  repeat split; try reflexivity. vm_compute; discriminate.
Defined.

Lemma anonymous_bears :
  Bears Scenario.anonymous png
    (slip (Some merchant_account) (Some Scenario.r2) 2000)
    (slip_data (Some merchant_account) (Some Scenario.r2) 2000) Scenario.r2 2000.
Proof.
  constructor; try reflexivity; [|discriminate].
  repeat split; try reflexivity. vm_compute; discriminate.
Defined.

Lemma r2_fresh : ~ recorded shop Scenario.r2.
Proof. intros (p & [<-|[]] & Hp). discriminate Hp. Defined.


Lemma shop_without_balance_fresh : ~ recorded Scenario.shop_without_balance Scenario.r2.
Proof. intros (p & [<-|[]] & Hp). discriminate Hp. Defined.

End ScenarioFacts.

(** * The claims *)

(** C1, as the handler has it. When an authenticated user who has a row in
    [userBalances] submits a slip that verifies with amount [a] and
    reference [r], names the expected receiver, is not a duplicate and
    passes the daily-limit check, the settlement inserts exactly one payment
    row (status ['CP'], the code of a completed payment, method ['BANK'],
    amount [a], transRef [r]) and adds [a] to that user's balance, as one
    unit: without a store fault both effects are there, with a fault at any
    step of the transaction neither is, and the store left is always one of
    the two. The user id is one issued by the users table, so it is not
    zero. *)
Theorem settlement_is_atomic env file data sd r a u d s b :
  Bears env file data sd r a ->
  getUser env = Some u -> id u <> 0 ->
  ~ recorded s r ->
  user_tier s (id u) = Some (Some d) ->
  exceeds (todayTotal env s (id u)) a (dl_dailyLimit d) = false ->
  balance_of s (id u) = Some b ->
  let s' := store_after env s in
  let row := new_payment r a (id u) (now env) in
  (pt_status row = "CP" /\ pt_method row = "BANK" /\ pt_amount row = a /\
   pt_transRef row = r /\ pt_userId row = id u) /\
  (storeFault env = None ->
     paymentTransactions s' = paymentTransactions s ++ [row] /\
     userBalances s' = map (credit (id u) a (now env)) (userBalances s) /\
     users s' = users s /\ depositLimits s' = depositLimits s /\
     balance_of s' (id u) = Some (b + a) /\
     (forall v, v <> id u -> balance_of s' v = balance_of s v)) /\
  (storeFault env <> None ->
     s' = s /\ response_of env s = Returned server_error) /\
  (s' = s \/ s' = settled env r a (id u) s) /\
  (forall w,
     let w' := snd (recordVerifiedSlip env r a (Some (id u)) w) in
     store w' = store w \/ store w' = settled env r a (id u) (store w)).
Proof.
  intros Hb Hu Hid Hfresh Htier Hle Hbal s' row.
  assert (Hs := store_after_within_limit env file data sd r a u d s
                  Hb Hu Hid Hfresh Htier Hle).
  assert (Hr := response_within_limit env file data sd r a u d s
                  Hb Hu Hid Hfresh Htier Hle).
  subst s'. rewrite Hs, Hr.
  split; [repeat split|].
  assert (Hunit : forall w,
            let w' := snd (recordVerifiedSlip env r a (Some (id u)) w) in
            store w' = store w \/ store w' = settled env r a (id u) (store w)).
  { intros w. cbv zeta. rewrite (recordVerifiedSlip_run env r a (id u) w Hid).
    destruct (storeFault env) as [[]|]; cbn [snd log store]; auto. }
  destruct (storeFault env) as [step|].
  - split; [discriminate|]. split; [|split; [now left|exact Hunit]].
    intros _. split; reflexivity.
  - split; [|split; [|split; [now right|exact Hunit]]].
    + intros _. repeat split.
      * now apply balance_of_settled.
      * intros v. apply balance_of_settled_other.
    + intros Hf. now contradiction Hf.
Qed.

Lemma settlement_is_atomic_witness :
  let env := Scenario.deposit 2000 true None in
  (~ recorded Sample.shop Scenario.r2) /\
  exceeds (todayTotal env Sample.shop 1) 2000 50000 = false /\
  balance_of Sample.shop 1 = Some 48100 /\
  balance_of (store_after env Sample.shop) 1 = Some 50100 /\
  paymentTransactions (store_after env Sample.shop) =
    paymentTransactions Sample.shop ++ [new_payment Scenario.r2 2000 1 Sample.ten_am].
Proof.
  intros env.
  assert (Hle : exceeds (todayTotal env Sample.shop 1) 2000 50000 = false)
    by reflexivity.
  destruct (settlement_is_atomic env _ _ _ Scenario.r2 2000 Sample.alice
              Scenario.level1 Sample.shop 48100 (deposit_bears 2000 true None)
              eq_refl ltac:(discriminate) r2_fresh eq_refl Hle eq_refl)
    as (_ & Hok & _).
  destruct (Hok eq_refl) as (Hrows & _ & _ & _ & Hbal & _).
  split; [exact r2_fresh|]. split; [exact Hle|]. split; [reflexivity|].
  split; [exact Hbal|exact Hrows].
Defined.

(** C1 as stated fails for a user without a row in [userBalances]: the
    balance update is an [UPDATE ... WHERE userId = ...] and nothing in the
    handler creates the row. Alice's deposit of 20.00 passes every check,
    the payment row is inserted, the transaction commits and the answer is
    [success], yet no balance is credited: only one of the two effects is
    visible. *)
Lemma deposit_settles_without_credit :
  let env := Scenario.deposit 2000 true None in
  let s := Scenario.shop_without_balance in
  Bears env Sample.png
    (Sample.slip (Some Sample.merchant_account) (Some Scenario.r2) 2000)
    (Sample.slip_data (Some Sample.merchant_account) (Some Scenario.r2) 2000)
    Scenario.r2 2000 /\
  getUser env = Some Sample.alice /\
  (~ recorded s Scenario.r2) /\
  user_tier s 1 = Some (Some Scenario.level1) /\
  exceeds (todayTotal env s 1) 2000 50000 = false /\
  storeFault env = None /\
  response_of env s = Returned success /\
  paymentTransactions (store_after env s) =
    paymentTransactions s ++ [new_payment Scenario.r2 2000 1 Sample.ten_am] /\
  In EvCommit (trace_of env s) /\
  userBalances (store_after env s) = userBalances s /\
  balance_of s 1 = None /\
  balance_of (store_after env s) 1 = None.
Proof.
  intros env s.
  split; [exact (deposit_bears 2000 true None)|].
  split; [reflexivity|]. split; [exact shop_without_balance_fresh|].
  repeat split. cbn. tauto.
Qed.

(** C2. Once a submission bearing the reference [r] has settled (the store
    records [r] after it, and did not before), every later submission
    bearing [r], whatever was handled in between, is rejected with
    [slip_already_used] after the provider call and the reuse query only,
    and leaves the store as it found it; over the two submissions the
    balances are credited once, with the first verified amount. *)
Theorem resubmission_is_rejected
    env1 file1 data1 sd1 a1 u s0 envs env2 file2 data2 sd2 a2 r :
  Bears env1 file1 data1 sd1 r a1 ->
  getUser env1 = Some u ->
  ~ recorded s0 r ->
  recorded (store_after env1 s0) r ->
  Bears env2 file2 data2 sd2 r a2 ->
  let s1 := store_after env1 s0 in
  let s2 := run_requests envs s1 in
  s1 = settled env1 r a1 (id u) s0 /\
  response_of env2 s2 = Returned slip_already_used /\
  store_after env2 s2 = s2 /\
  trace_of env2 s2 = [EvFetch (file_bytes file2); EvSelectSlip r] /\
  userBalances (store_after env2 s1) =
    map (credit (id u) a1 (now env1)) (userBalances s0) /\
  (forall b, balance_of s0 (id u) = Some b ->
             balance_of (store_after env2 s1) (id u) = Some (b + a1)).
Proof.
  intros Hb1 Hu Hfresh Hsettled Hb2 s1 s2.
  assert (Hs1 : s1 = settled env1 r a1 (id u) s0).
  { subst s1.
    destruct (store_after_cases env1 s0)
      as [Hsame | (u' & r' & a' & Hu' & (f & dt & sd & Hb') & Hs)].
    - rewrite Hsame in Hsettled. contradiction.
    - destruct (Bears_unique _ _ _ _ _ _ _ _ _ _ _ Hb1 Hb') as [<- <-].
      rewrite Hu in Hu'. injection Hu' as <-. exact Hs. }
  assert (Hrec2 : recorded s2 r) by (now apply recorded_run_requests).
  assert (Hrun2 := POST_duplicate env2 file2 data2 sd2 r a2 Hb2 (start s2) Hrec2).
  assert (Hrun1 := POST_duplicate env2 file2 data2 sd2 r a2 Hb2 (start s1) Hsettled).
  unfold response_of, store_after, trace_of. rewrite Hrun2.
  fold s1. rewrite Hrun1. cbn [fst snd log store trace start app].
  repeat split; auto.
  - rewrite Hs1. reflexivity.
  - rewrite Hs1. intros b. apply balance_of_settled.
Qed.

Lemma resubmission_is_rejected_witness :
  let first := Scenario.deposit 2000 true None in
  let between := [Scenario.bob_submits Sample.merchant_account (Some "2024050100003")] in
  let second := Scenario.bob_submits Sample.merchant_account (Some Scenario.r2) in
  let s1 := store_after first Sample.shop in
  recorded s1 Scenario.r2 /\
  response_of second (run_requests between s1) = Returned slip_already_used /\
  store_after second (run_requests between s1) = run_requests between s1 /\
  balance_of (store_after second s1) 1 = Some 50100.
Proof.
  intros first between second s1.
  assert (Hrec : recorded s1 Scenario.r2).
  { exists (new_payment Scenario.r2 2000 1 Sample.ten_am).
    split; [vm_compute; right; left; reflexivity | reflexivity]. }
  destruct (resubmission_is_rejected first _ _ _ 2000 Sample.alice Sample.shop
              between second _ _ _ 700 Scenario.r2
              (deposit_bears 2000 true None) eq_refl r2_fresh Hrec
              (bob_bears Scenario.r2 ltac:(discriminate)))
    as (_ & Hresp & Hstore & _ & _ & Hbal).
  split; [exact Hrec|]. split; [exact Hresp|]. split; [exact Hstore|].
  exact (Hbal 48100 eq_refl).
Defined.

(** C3, as the handler has it. After a settlement that committed, the
    outcome of the notification decides the response and nothing else:
    the deposit stays settled and the notification is sent once; when the
    dispatch resolves the handler answers [success] with status 200, and
    when it throws, the error reaches the handler's [catch], is logged, and
    the answer is [server_error] with status 500. *)
Theorem notification_outcome env file data sd r a u d s :
  Bears env file data sd r a ->
  getUser env = Some u -> id u <> 0 ->
  ~ recorded s r ->
  user_tier s (id u) = Some (Some d) ->
  exceeds (todayTotal env s (id u)) a (dl_dailyLimit d) = false ->
  storeFault env = None ->
  store_after env s = settled env r a (id u) s /\
  notifications (trace_of env s) = [EvNotify (user_display u) a r] /\
  (sendDepositNotification env (notification u r a) = true ->
     response_of env s = Returned success /\
     trace_of env s = settlement_events file r a u) /\
  (sendDepositNotification env (notification u r a) = false ->
     response_of env s = Returned server_error /\
     trace_of env s =
       settlement_events file r a u ++ [EvConsoleError "Error verifying slip:"]).
Proof.
  intros Hb Hu Hid Hfresh Htier Hle Hfault.
  rewrite (store_after_within_limit env file data sd r a u d s) by assumption.
  rewrite (response_within_limit env file data sd r a u d s) by assumption.
  rewrite (trace_within_limit env file data sd r a u d s) by assumption.
  rewrite Hfault.
  destruct (sendDepositNotification env (notification u r a));
    repeat split; try discriminate; try reflexivity;
    intros _; split; try reflexivity; apply app_nil_r.
Qed.

Lemma notification_outcome_witness :
  let env := Scenario.deposit 2000 false None in
  sendDepositNotification env (notification Sample.alice Scenario.r2 2000) = false /\
  response_of env Sample.shop = Returned server_error /\
  balance_of (store_after env Sample.shop) 1 = Some 50100 /\
  notifications (trace_of env Sample.shop) = [EvNotify "Alice" 2000 Scenario.r2].
Proof.
  intros env.
  assert (Hle : exceeds (todayTotal env Sample.shop 1) 2000 50000 = false)
    by reflexivity.
  destruct (notification_outcome env _ _ _ Scenario.r2 2000 Sample.alice
              Scenario.level1 Sample.shop
              (deposit_bears 2000 false None) eq_refl
              ltac:(discriminate) r2_fresh eq_refl Hle eq_refl)
    as (Hstore & Hsent & _ & Hthrows).
  split; [reflexivity|]. split; [exact (proj1 (Hthrows eq_refl))|].
  split; [rewrite Hstore; reflexivity | exact Hsent].
Defined.

(** C3 as stated fails: Alice's deposit of 20.00 is settled, the notification
    throws, and the handler answers [server_error] with status 500, not
    [success]. *)
Lemma notification_failure_changes_response :
  let env := Scenario.deposit 2000 false None in
  store_after env Sample.shop = settled env Scenario.r2 2000 1 Sample.shop /\
  response_of env Sample.shop = Returned server_error /\
  response_of env Sample.shop <> Returned success /\
  http_status server_error = 500.
Proof.
  intros env. split; [reflexivity|]. split; [reflexivity|].
  split; [discriminate|reflexivity].
Qed.

(** A session user whose id is [0] passes the limit check and then fails
    in [recordVerifiedSlip], as a request without a session does. *)
Lemma POST_unusable_id env file data sd r a u d w :
  Bears env file data sd r a ->
  getUser env = Some u -> id u = 0 ->
  user_tier (store w) (id u) = Some (Some d) ->
  ~ recorded (store w) r ->
  exceeds (todayTotal env (store w) (id u)) a (dl_dailyLimit d) = false ->
  POST env w =
  (Returned server_error,
   log [EvFetch (file_bytes file); EvSelectSlip r;
        EvSelectUserLimit (id u); EvSelectDailyTotal (id u);
        EvConsoleError "Error verifying slip:"] w).
Proof.
  intros Hb Hu Hid Htier Hfresh Hle.
  rewrite (POST_bears env file data sd r a Hb). unfold try_catch.
  rewrite (slip_unused _ _ Hfresh), Hu.
  unfold bind at 1. rewrite checkDepositLimits_run. cbn [log store].
  rewrite Htier. unfold limit_verdict.
  rewrite Hle. cbn [allowed negb].
  rewrite record_and_notify_null
    by (rewrite Hu; unfold user_id_or_null, truthy_number; now rewrite Hid).
  now same_world.
Qed.




Lemma strict_neq_false o s : strict_neq o s = false <-> o = Some s.
Proof.
  unfold strict_neq. destruct o as [x|]; [|split; discriminate].
  destruct (String.eqb x s) eqn:E; cbn [negb].
  - apply String.eqb_eq in E. subst. tauto.
  - apply String.eqb_neq in E. split; [discriminate|]. intros [= ->]. contradiction.
Qed.

Lemma validateReceiver_spec data :
  validateReceiver data = true <-> receiver_is_merchant data.
Proof.
  unfold validateReceiver, receiver_is_merchant.
  destruct (receiver_account data) as [acc|].
  - split.
    + intros H. exists acc. split; [reflexivity|].
      destruct (strict_neq (name_th acc) _) eqn:E1; [discriminate|].
      destruct (strict_neq (name_en acc) _) eqn:E2; [discriminate|].
      destruct (strict_neq (bank_type acc) _) eqn:E3; [discriminate|].
      destruct (strict_neq (bank_account acc) _) eqn:E4; [discriminate|].
      apply strict_neq_false in E1, E2, E3, E4. auto.
    + intros (acc' & [= <-] & H1 & H2 & H3 & H4).
      apply strict_neq_false in H1, H2, H3, H4.
      now rewrite H1, H2, H3, H4.
  - split; [discriminate|]. intros (acc & Hacc & _). discriminate.
Qed.

(** C5. For every verified answer of the provider the receiver check
    accepts exactly when the receiver is the expected merchant; otherwise,
    whatever the amount and the sender, the handler answers
    [invalid_receiver] right after the provider call and leaves the store
    alone. *)
Theorem receiver_check env file data sd s :
  slip_verifies env file data sd ->
  (validateReceiver data = true <-> receiver_is_merchant data) /\
  (~ receiver_is_merchant data ->
     response_of env s = Returned invalid_receiver /\
     store_after env s = s /\
     trace_of env s = [EvFetch (file_bytes file)]).
Proof.
  intros Hv. split; [apply validateReceiver_spec|].
  intros Hno.
  assert (Hrecv : validateReceiver data = false).
  { destruct (validateReceiver data) eqn:E; [|reflexivity].
    apply validateReceiver_spec in E. contradiction. }
  unfold response_of, store_after, trace_of, POST, try_catch.
  rewrite (POST_try_verified env file data sd (start s) Hv), Hrecv.
  repeat split.
Qed.

Lemma receiver_check_witness :
  let wrong := Scenario.bob_submits Sample.other_account (Some Scenario.r2) in
  let good := Scenario.bob_submits Sample.merchant_account (Some Scenario.r2) in
  validateReceiver (Sample.slip (Some Sample.merchant_account) (Some Scenario.r2) 700)
    = true /\
  (~ receiver_is_merchant (Sample.slip (Some Sample.other_account) (Some Scenario.r2) 700)) /\
  response_of wrong Sample.shop = Returned invalid_receiver /\
  store_after wrong Sample.shop = Sample.shop.
Proof.
  intros wrong good.
  assert (Hv : forall acc,
            slip_verifies (Scenario.bob_submits acc (Some Scenario.r2)) Sample.png
              (Sample.slip (Some acc) (Some Scenario.r2) 700)
              (Sample.slip_data (Some acc) (Some Scenario.r2) 700)).
  { intros acc. repeat split; try reflexivity. vm_compute; discriminate. }
  destruct (receiver_check good _ _ _ Sample.shop (Hv Sample.merchant_account))
    as [Hiff _].
  destruct (receiver_check wrong _ _ _ Sample.shop (Hv Sample.other_account))
    as [Hiff' Hreject].
  assert (Hno : ~ receiver_is_merchant
                    (Sample.slip (Some Sample.other_account) (Some Scenario.r2) 700)).
  { intros Hm. apply Hiff' in Hm. discriminate Hm. }
  split.
  - apply Hiff. exists Sample.merchant_account. repeat split.
  - split; [exact Hno|]. destruct (Hreject Hno) as (Hresp & Hstore & _).
    split; assumption.
Defined.

(** C6. A request that ends in a rejection ([invalid_payload],
    [image_size_too_large], [invalid_image], [invalid_slip],
    [invalid_receiver], [slip_already_used], [deposit_limit_exceeded], the
    last also being the answer to a user without a tier) has status 400,
    leaves the store as it was, and has sent no insert and no balance
    update to it. *)
Theorem rejection_leaves_store env s resp :
  response_of env s = Returned resp ->
  In (body_message resp) rejection_messages ->
  store_after env s = s /\
  read_only (trace_of env s) /\
  http_status resp = 400.
Proof.
  unfold response_of, store_after, trace_of.
  destruct (POST_handled env (start s)) as (resp' & w' & Hrun & Hh).
  rewrite Hrun. cbn [fst snd]. intros [= <-] Hmsg.
  destruct Hh as [ msg details evs -> _ Hs Ht Hro
                 | evs -> _ _ _
                 | evs -> _ _
                 | u r a evs Hresp _ _ _ _ _ _ _ _ ].
  - rewrite Hs, Ht. cbn [start store trace app]. repeat split. exact Hro.
  - exfalso. cbn in Hmsg. intuition discriminate.
  - exfalso. cbn in Hmsg. intuition discriminate.
  - exfalso. rewrite Hresp in Hmsg.
    destruct (sendDepositNotification env _); cbn in Hmsg; intuition discriminate.
Qed.

Lemma rejection_leaves_store_witness :
  let env := Scenario.deposit 3000 true None in
  response_of env Sample.shop =
    Returned (deposit_limit_exceeded (WouldExceedDailyLimit 50000)) /\
  store_after env Sample.shop = Sample.shop /\
  read_only (trace_of env Sample.shop).
Proof.
  intros env.
  destruct (rejection_leaves_store env Sample.shop
              (deposit_limit_exceeded (WouldExceedDailyLimit 50000)) eq_refl)
    as (Hstore & Hro & _).
  - cbn. tauto.
  - split; [reflexivity|]. split; assumption.
Defined.

(** C7, as the handler has it. A session user whose row has no tier is
    never settled: whatever is submitted, the store stays as it was. A
    submission that reaches the limit check (it bears an unused reference)
    is rejected with status 400 and the message [deposit_limit_exceeded],
    the message of a limit excess; only the details, 'No deposit limit set
    for user', tell the two apart. *)
Theorem no_tier_never_settles env u s :
  getUser env = Some u ->
  has_no_tier s (id u) ->
  store_after env s = s /\
  (forall file data sd r a,
     Bears env file data sd r a -> ~ recorded s r ->
     response_of env s =
       Returned (json 400 "deposit_limit_exceeded"
                   (Some (DetailsLimit NoDepositLimitSet)) 400) /\
     trace_of env s =
       [EvFetch (file_bytes file); EvSelectSlip r; EvSelectUserLimit (id u)]).
Proof.
  intros Hu Hno. apply has_no_tier_user_tier in Hno. split.
  - unfold store_after.
    destruct (POST_handled env (start s)) as (resp & w' & Hrun & Hh).
    rewrite Hrun. cbn [snd].
    destruct Hh as [ ? ? ? _ _ Hs _ _ | ? _ Hs _ _ | ? _ Hs _
                   | u2 r2 a2 ? _ _ _ Hu2 _ _ _ (d & Htier & _) _ ];
      try exact Hs.
    rewrite Hu in Hu2. injection Hu2 as <-.
    cbn [start store] in Htier. rewrite Hno in Htier. discriminate.
  - intros file data sd r a Hb Hfresh.
    unfold response_of, trace_of.
    rewrite (POST_no_tier env file data sd r a Hb u (start s) Hu Hno Hfresh).
    split; reflexivity.
Qed.

Lemma no_tier_never_settles_witness :
  let env := Scenario.bob_submits Sample.merchant_account (Some Scenario.r2) in
  has_no_tier Sample.shop 2 /\
  store_after env Sample.shop = Sample.shop /\
  response_of env Sample.shop =
    Returned (json 400 "deposit_limit_exceeded"
                (Some (DetailsLimit NoDepositLimitSet)) 400).
Proof.
  intros env.
  assert (Hno : has_no_tier Sample.shop 2).
  { exists {| users_id := 2; users_depositLimitId := None |}. split; reflexivity. }
  destruct (no_tier_never_settles env Sample.bob Sample.shop eq_refl Hno)
    as [Hstore Hreject].
  destruct (Hreject _ _ _ _ _ (bob_bears Scenario.r2 ltac:(discriminate))
              r2_fresh) as [Hresp _].
  split; [exact Hno|]. split; [exact Hstore|exact Hresp].
Defined.

(** C7 as stated fails twice on Bob, who has no tier: his valid slip is
    rejected with the message [deposit_limit_exceeded], not
    [no_limit_configured]; and his slip without a transfer reference is not
    rejected at all, the handler answers [success] (and settles nothing). *)
Lemma no_tier_answer_is_limit_exceeded :
  let env := Scenario.bob_submits Sample.merchant_account (Some Scenario.r2) in
  let blank := Scenario.bob_submits Sample.merchant_account (Some "") in
  has_no_tier Sample.shop 2 /\
  (exists resp,
     response_of env Sample.shop = Returned resp /\
     body_message resp = "deposit_limit_exceeded" /\
     body_message resp <> "no_limit_configured") /\
  response_of blank Sample.shop = Returned success /\
  store_after blank Sample.shop = Sample.shop.
Proof.
  intros env blank. split.
  - exists {| users_id := 2; users_depositLimitId := None |}. split; reflexivity.
  - split; [|split; reflexivity].
    eexists. split; [reflexivity|]. split; [reflexivity|discriminate].
Qed.

(** C8, as the handler has it. When the provider answers 2xx with a payload
    that names the expected receiver and whose [transRef] is absent or
    empty, the handler answers [success] with status 200 and does nothing
    after the provider call: no reuse query, no limit check, no insert, no
    balance update, no notification. *)
Theorem blank_transRef_skips_settlement env file data sd s :
  slip_verifies env file data sd ->
  validateReceiver data = true ->
  EasySlip.transRef sd = None \/ EasySlip.transRef sd = Some "" ->
  response_of env s = Returned success /\
  http_status success = 200 /\
  store_after env s = s /\
  trace_of env s = [EvFetch (file_bytes file)].
Proof.
  intros Hv Hrecv Hblank.
  unfold response_of, store_after, trace_of, POST, try_catch.
  rewrite (POST_try_verified env file data sd (start s) Hv), Hrecv.
  unfold settle. destruct Hblank as [-> | ->]; repeat split.
Qed.

Lemma blank_transRef_skips_settlement_witness :
  let env := Scenario.bob_submits Sample.merchant_account (Some "") in
  response_of env Sample.shop = Returned success /\
  store_after env Sample.shop = Sample.shop /\
  trace_of env Sample.shop = [EvFetch "PNG"].
Proof.
  intros env.
  destruct (blank_transRef_skips_settlement env Sample.png
              (Sample.slip (Some Sample.merchant_account) (Some "") 700)
              (Sample.slip_data (Some Sample.merchant_account) (Some "") 700)
              Sample.shop)
    as (Hresp & _ & Hstore & Htrace).
  - repeat split; try reflexivity. vm_compute; discriminate.
  - reflexivity.
  - right; reflexivity.
  - split; [exact Hresp|]. split; [exact Hstore|exact Htrace].
Defined.

(** C8 as stated fails: a 2xx payload with an empty [transRef] whose
    receiver is not the expected merchant is answered [invalid_receiver]
    with status 400, not [success]. *)
Lemma blank_transRef_wrong_receiver :
  let env := Scenario.bob_submits Sample.other_account (Some "") in
  easyslip env "PNG" =
    FetchResponse true (BodyJson (Sample.slip (Some Sample.other_account) (Some "") 700)) /\
  response_of env Sample.shop = Returned invalid_receiver /\
  response_of env Sample.shop <> Returned success /\
  http_status invalid_receiver = 400.
Proof.
  intros env. split; [reflexivity|]. split; [reflexivity|].
  split; [discriminate|reflexivity].
Qed.

Lemma formData_get_slip_without_amount fd :
  formData_get "slip" (without_amount fd) = formData_get "slip" fd.
Proof.
  unfold formData_get, without_amount.
  induction fd as [|[k v] fd IH]; [reflexivity|].
  cbn [filter find fst].
  destruct (String.eqb k "amount") eqn:Ea; cbn [negb].
  - apply String.eqb_eq in Ea. subst k. cbn. exact IH.
  - cbn [find fst]. destruct (String.eqb k "slip"); [reflexivity|exact IH].
Qed.

Lemma settle_with_formData env fd sd :
  settle (with_formData env fd) sd = settle env sd.
Proof. reflexivity. Qed.

Lemma POST_formData env fd fd' w :
  formData_get "slip" fd = formData_get "slip" fd' ->
  POST (with_formData env fd) w = POST (with_formData env fd') w.
Proof.
  intros H. unfold POST, POST_try.
  cbn [request_formData with_formData easyslip]. rewrite H.
  reflexivity.
Qed.

(** C9. Two requests that differ only in the ['amount'] fields of the
    multipart body get the same response and leave the same store and
    trace: the handler reads the ['slip'] field only, and the amount it
    checks and settles is the provider's. *)
Theorem claimed_amount_is_ignored env fd fd' w :
  without_amount fd = without_amount fd' ->
  POST (with_formData env fd) w = POST (with_formData env fd') w.
Proof.
  intros H. apply POST_formData.
  rewrite <- (formData_get_slip_without_amount fd),
          <- (formData_get_slip_without_amount fd').
  now rewrite H.
Qed.

Lemma claimed_amount_is_ignored_witness :
  let env := Scenario.deposit 2000 true None in
  let w := start Sample.shop in
  POST (with_formData env (Sample.form "2000")) w =
  POST (with_formData env [("amount", FormString "1"); ("slip", FormFile Sample.png)]) w.
Proof.
  intros env w. apply claimed_amount_is_ignored. reflexivity.
Defined.

(** C10. A request without a session whose slip verifies, names the
    expected receiver and bears an unused, non-empty reference: no limit
    query is made, [recordVerifiedSlip] throws 'User ID is required' before
    any store access, and the handler answers [server_error] with status
    500; the store is as it was. *)
Theorem anonymous_submission_fails env file data sd r a s :
  Bears env file data sd r a ->
  getUser env = None ->
  ~ recorded s r ->
  response_of env s = Returned server_error /\
  http_status server_error = 500 /\
  store_after env s = s /\
  trace_of env s =
    [EvFetch (file_bytes file); EvSelectSlip r; EvConsoleError "Error verifying slip:"] /\
  (forall w, recordVerifiedSlip env r a (user_id_or_null (getUser env)) w =
             (Thrown (ErrorMessage "User ID is required"), w)).
Proof.
  intros Hb Hu Hfresh.
  unfold response_of, store_after, trace_of.
  rewrite (POST_anonymous env file data sd r a Hb (start s) Hu Hfresh).
  repeat split. intros w. rewrite Hu. reflexivity.
Qed.

Lemma anonymous_submission_fails_witness :
  response_of Scenario.anonymous Sample.shop = Returned server_error /\
  store_after Scenario.anonymous Sample.shop = Sample.shop /\
  trace_of Scenario.anonymous Sample.shop =
    [EvFetch "PNG"; EvSelectSlip Scenario.r2; EvConsoleError "Error verifying slip:"].
Proof.
  destruct (anonymous_submission_fails Scenario.anonymous _ _ _ _ _ Sample.shop
              anonymous_bears eq_refl r2_fresh)
    as (Hresp & _ & Hstore & Htrace & _).
  split; [exact Hresp|]. split; [exact Hstore|exact Htrace].
Defined.

(** * Further properties of the handler *)

Lemma quiet_app evs evs' : quiet (evs ++ evs') = quiet evs && quiet evs'.
Proof. apply forallb_app. Qed.

Lemma notifications_quiet evs : quiet evs = true -> notifications evs = [].
Proof.
  induction evs as [|ev evs IH]; [reflexivity|].
  cbn [quiet forallb notifications filter].
  destruct ev; cbn; try discriminate; intros H; apply IH; exact H.
Qed.

Lemma quiet_no_commit evs : quiet evs = true -> ~ In EvCommit evs.
Proof.
  intros H Hin. unfold quiet in H. rewrite forallb_forall in H.
  specialize (H _ Hin). discriminate.
Qed.

Ltac unchanged :=
  responds;
  eapply Ended_unchanged;
  [ reflexivity | trace_eq
  | rewrite ?quiet_app; cbn [quiet forallb andb]; rewrite ?andb_true_r; auto ].

Lemma record_and_notify_ended env r a evs w :
  quiet evs = true ->
  exists resp w',
    try_catch (record_and_notify env r a) catch_all (log evs w) = (Returned resp, w') /\
    Ended env w resp w'.
Proof.
  intros Hq. unfold try_catch.
  destruct (getUser env) as [u|] eqn:Hu.
  - destruct (Z.eq_dec (id u) 0) as [Hz|Hnz].
    + rewrite record_and_notify_null
        by (rewrite Hu; unfold user_id_or_null, truthy_number; now rewrite Hz).
      unchanged.
    + rewrite (record_and_notify_run _ _ _ _ _ Hu Hnz).
      destruct (storeFault env) as [[]|] eqn:Hfault; try unchanged.
      cbv zeta.
      destruct (sendDepositNotification env (notification u r a)) eqn:Hn.
      * responds.
        apply (Ended_settled _ _ _ _ u r a
                 (evs ++ [EvBegin; EvInsertPayment r a; EvUpdateBalance (id u) a]) []);
          auto; [trace_eq | rewrite quiet_app, Hq; reflexivity | now rewrite Hn].
      * responds.
        apply (Ended_settled _ _ _ _ u r a
                 (evs ++ [EvBegin; EvInsertPayment r a; EvUpdateBalance (id u) a])
                 [EvConsoleError "Error verifying slip:"]);
          auto; [trace_eq | rewrite quiet_app, Hq; reflexivity | now rewrite Hn].
  - rewrite record_and_notify_null by (now rewrite Hu).
    unchanged.
Qed.

Lemma settle_ended env sd evs w :
  quiet evs = true ->
  exists resp w',
    try_catch (settle env sd) catch_all (log evs w) = (Returned resp, w') /\
    Ended env w resp w'.
Proof.
  intros Hq.
  destruct (EasySlip.transRef sd) as [r|] eqn:Hr;
    [ destruct (String.eqb r "") eqn:Hempty | ].
  - unfold try_catch, settle, truthy_string. rewrite Hr, Hempty. unchanged.
  - assert (Hne : r <> "") by (intros ->; discriminate).
    unfold try_catch. rewrite (settle_bears env sd r _ _ Hr Hne eq_refl).
    cbn [log store].
    destruct (slip_used (store w) r) eqn:Hused; [unchanged|].
    set (a := EasySlip.amount (EasySlip.data_amount sd)).
    destruct (getUser env) as [u|] eqn:Hu.
    + unfold bind at 1. rewrite checkDepositLimits_run. cbn [log store].
      destruct (user_tier (store w) (id u)) as [[d|]|] eqn:Htier;
        [ | unchanged | unchanged ].
      rewrite limit_verdict_allowed, negb_involutive.
      destruct (exceeds (todayTotal env (store w) (id u)) a (dl_dailyLimit d)) eqn:Hgt;
        [unchanged|].
      rewrite !log_log.
      apply (record_and_notify_ended env r a).
      rewrite quiet_app, Hq. reflexivity.
    + rewrite log_log.
      apply (record_and_notify_ended env r a).
      rewrite quiet_app, Hq. reflexivity.
  - unfold try_catch, settle. rewrite Hr. unchanged.
Qed.

(** Every request ends with the store untouched, or with one settlement
    committed and then notified. *)
Lemma POST_ended env w :
  exists resp w', POST env w = (Returned resp, w') /\ Ended env w resp w'.
Proof.
  unfold POST.
  destruct (formData_get "slip" (request_formData env)) as [[s|file]|] eqn:Hget.
  - unfold try_catch, POST_try. rewrite Hget.
    destruct (truthy_string s); cbn [negb]; unchanged.
  - destruct (file_size file >? maxFileSize) eqn:Hsize;
      [ unfold try_catch, POST_try; rewrite Hget, Hsize; unchanged | ].
    destruct (String.prefix "image/" (file_type file)) eqn:Htype;
      [ | unfold try_catch, POST_try; rewrite Hget, Hsize, Htype; unchanged ].
    destruct (easyslip env (file_bytes file)) as [|[] [|data]] eqn:Hfetch;
      try (unfold try_catch, POST_try, bind, emit;
           rewrite Hget, Hsize, Htype, Hfetch; cbn [negb]; unchanged).
    destruct (EasySlip.data data) as [sd|] eqn:Hdata;
      [ | unfold try_catch, POST_try, bind, emit;
          rewrite Hget, Hsize, Htype, Hfetch, Hdata; cbn [negb]; unchanged ].
    assert (Hv : slip_verifies env file data sd).
    { repeat split; auto. rewrite Z.gtb_ltb in Hsize. now apply Z.ltb_ge. }
    destruct (validateReceiver data) eqn:Hrecv.
    + destruct (settle_ended env sd [EvFetch (file_bytes file)] w)
        as (resp & w' & Hrun & Hh); [reflexivity|].
      exists resp, w'. split; [|exact Hh].
      unfold try_catch in *. rewrite (POST_try_verified _ _ _ _ _ Hv), Hrecv.
      exact Hrun.
    + unfold try_catch. rewrite (POST_try_verified _ _ _ _ _ Hv), Hrecv. unchanged.
  - unfold try_catch, POST_try. rewrite Hget. unchanged.
Qed.

(** X1. The handler never lets an exception out: every request is answered,
    the status in the body is the HTTP status, and the answer is [success]
    with 200, one of the seven rejections with 400, or [server_error]
    with 500. *)
Theorem handler_always_responds env s :
  exists resp,
    response_of env s = Returned resp /\
    body_status resp = http_status resp /\
    ((http_status resp = 200 /\ resp = success) \/
     (http_status resp = 400 /\ In (body_message resp) rejection_messages) \/
     (http_status resp = 500 /\ resp = server_error)).
Proof.
  unfold response_of.
  destruct (POST_handled env (start s)) as (resp & w' & Hrun & Hh).
  exists resp. rewrite Hrun. split; [reflexivity|].
  destruct Hh as [ msg details evs -> Hmsg _ _ _
                 | evs -> _ _ _
                 | evs -> _ _
                 | u r a evs -> _ _ _ _ _ _ _ _ ].
  - split; [reflexivity|]. right; left. split; [reflexivity|exact Hmsg].
  - split; [reflexivity|]. left. split; reflexivity.
  - split; [reflexivity|]. right; right. split; reflexivity.
  - destruct (sendDepositNotification env _).
    + split; [reflexivity|]. left. split; reflexivity.
    + split; [reflexivity|]. right; right. split; reflexivity.
Qed.

Lemma log_nil w : log [] w = w.
Proof. destruct w; unfold log; cbn [store trace]. now rewrite app_nil_r. Qed.

Lemma trace_extends env sd w :
  exists evs, trace (snd (try_catch (settle env sd) catch_all w)) = trace w ++ evs.
Proof.
  destruct (settle_ended env sd [] w eq_refl) as (resp & w' & Hrun & He).
  rewrite log_nil in Hrun. rewrite Hrun. cbn [snd].
  destruct He as [evs _ Ht _ | u r a pre post _ Ht _ _ _ _]; eauto.
Qed.

(** X2. The checks on the uploaded file are made before anything else: a
    file over 10 MB is answered [image_size_too_large] and a file whose
    type does not start with ['image/'] is answered [invalid_image], both
    without a provider call or a store access; a file of at most 10 MB
    (10485760 bytes included) with an image type is posted to the provider
    first. *)
Theorem file_checks_come_first env s file :
  formData_get "slip" (request_formData env) = Some (FormFile file) ->
  (file_size file > 10485760 ->
     response_of env s = Returned (json 400 "image_size_too_large" None 400) /\
     trace_of env s = [] /\ store_after env s = s) /\
  (file_size file <= 10485760 ->
   String.prefix "image/" (file_type file) = false ->
     response_of env s = Returned (json 400 "invalid_image" None 400) /\
     trace_of env s = [] /\ store_after env s = s) /\
  (file_size file <= 10485760 ->
   String.prefix "image/" (file_type file) = true ->
     exists evs, trace_of env s = EvFetch (file_bytes file) :: evs).
Proof.
  intros Hget. change 10485760 with maxFileSize.
  unfold response_of, store_after, trace_of, POST, try_catch, POST_try.
  rewrite Hget. split; [|split].
  - intros Hgt. rewrite (proj2 (Z.gtb_gt _ _) Hgt). repeat split.
  - intros Hle Htype.
    assert (Hsize : (file_size file >? maxFileSize) = false)
      by (rewrite Z.gtb_ltb; now apply Z.ltb_ge).
    rewrite Hsize, Htype. repeat split.
  - intros Hle Htype.
    assert (Hsize : (file_size file >? maxFileSize) = false)
      by (rewrite Z.gtb_ltb; now apply Z.ltb_ge).
    rewrite Hsize, Htype. cbn [negb]. unfold bind at 1, emit at 1.
    cbn [start store trace app].
    destruct (easyslip env (file_bytes file)) as [|[] [|data]];
      try (eexists; reflexivity).
    destruct (EasySlip.data data) as [sd|]; [|eexists; reflexivity].
    destruct (validateReceiver data); cbn [negb]; [|eexists; reflexivity].
    destruct (trace_extends env sd
                {| store := s; trace := [EvFetch (file_bytes file)] |})
      as (evs & Hevs).
    exists evs. unfold try_catch, catch_all in Hevs. exact Hevs.
Qed.

Lemma file_checks_come_first_witness :
  let big := {| file_size := 11 * 1024 * 1024; file_type := "image/png";
                file_bytes := "BIG" |} in
  let env := Sample.request (Some Sample.alice) [("slip", FormFile big)]
               (Sample.slip (Some Sample.merchant_account) (Some Scenario.r2) 2000)
               true None in
  response_of env Sample.shop = Returned (json 400 "image_size_too_large" None 400) /\
  trace_of env Sample.shop = [] /\
  (exists evs, trace_of (Scenario.deposit 2000 true None) Sample.shop =
               EvFetch "PNG" :: evs).
Proof.
  intros big env.
  destruct (file_checks_come_first env Sample.shop big eq_refl) as (Hbig & _ & _).
  destruct (file_checks_come_first (Scenario.deposit 2000 true None) Sample.shop
              Sample.png eq_refl) as (_ & _ & Hok).
  destruct (Hbig eq_refl) as (Hresp & Htrace & _).
  split; [exact Hresp|]. split; [exact Htrace|].
  apply Hok; [vm_compute; discriminate | reflexivity].
Defined.

(** X3. A body without a ['slip'] field, or with an empty text in it, is
    answered [invalid_payload]; a non-empty text in the ['slip'] field is
    not: reading [file.type.startsWith] of a string throws, and the answer
    is [server_error] with status 500. Neither reaches the provider or the
    store. *)
Theorem slip_field_not_a_file env s :
  (formData_get "slip" (request_formData env) = None \/
   formData_get "slip" (request_formData env) = Some (FormString "") ->
     response_of env s = Returned (json 400 "invalid_payload" None 400) /\
     trace_of env s = [] /\ store_after env s = s) /\
  (forall text,
     formData_get "slip" (request_formData env) = Some (FormString text) ->
     text <> "" ->
     response_of env s = Returned server_error /\
     trace_of env s = [EvConsoleError "Error verifying slip:"] /\
     store_after env s = s).
Proof.
  unfold response_of, store_after, trace_of, POST, try_catch, POST_try. split.
  - intros [-> | ->]; repeat split.
  - intros text -> Hne. rewrite (truthy_nonempty _ Hne). repeat split.
Qed.

Lemma slip_field_not_a_file_witness :
  let env := Sample.request (Some Sample.alice) [("slip", FormString "slip.png")]
               (Sample.slip (Some Sample.merchant_account) (Some Scenario.r2) 2000)
               true None in
  response_of env Sample.shop = Returned server_error /\
  store_after env Sample.shop = Sample.shop.
Proof.
  intros env.
  destruct (slip_field_not_a_file env Sample.shop) as [_ Htext].
  destruct (Htext "slip.png" eq_refl ltac:(discriminate)) as (Hresp & _ & Hstore).
  split; assumption.
Defined.

(** X4. When the provider does not deliver a payload the request stops
    there, without any store access: a rejected [fetch] or a 2xx body that
    is not JSON gives [server_error] 500, a non-2xx response gives
    [invalid_slip] and is logged, and a 2xx answer without [data] gives
    [invalid_slip] with the provider's [message] as details. *)
Theorem provider_failures env s file :
  posts_image env file ->
  (easyslip env (file_bytes file) = FetchRejects \/
   easyslip env (file_bytes file) = FetchResponse true BodyNotJson ->
     response_of env s = Returned server_error /\
     trace_of env s =
       [EvFetch (file_bytes file); EvConsoleError "Error verifying slip:"] /\
     store_after env s = s) /\
  (forall body,
     easyslip env (file_bytes file) = FetchResponse false body ->
     response_of env s = Returned (json 400 "invalid_slip" None 400) /\
     trace_of env s =
       [EvFetch (file_bytes file); EvConsoleError "EasySlip API error:"] /\
     store_after env s = s) /\
  (forall data,
     easyslip env (file_bytes file) = FetchResponse true (BodyJson data) ->
     EasySlip.data data = None ->
     response_of env s =
       Returned (json 400 "invalid_slip"
                   (option_map DetailsText (EasySlip.message data)) 400) /\
     trace_of env s = [EvFetch (file_bytes file)] /\
     store_after env s = s).
Proof.
  intros (Hget & Hle & Htype).
  assert (Hsize : (file_size file >? maxFileSize) = false)
    by (rewrite Z.gtb_ltb; now apply Z.ltb_ge).
  unfold response_of, store_after, trace_of, POST, try_catch, POST_try.
  rewrite Hget, Hsize, Htype. cbn [negb]. unfold bind, emit.
  cbn [start store trace app].
  split; [|split].
  - intros [-> | ->]; repeat split.
  - intros body ->. repeat split.
  - intros data -> ->. repeat split.
Qed.

Lemma provider_failures_witness :
  let env := {| getUser := Some Sample.alice;
                request_formData := Sample.form "2000";
                easyslip := fun _ => FetchRejects;
                sendDepositNotification := fun _ => true;
                now := Sample.ten_am;
                localMidnight := Sample.setHours0;
                storeFault := None |} in
  posts_image env Sample.png /\
  response_of env Sample.shop = Returned server_error /\
  store_after env Sample.shop = Sample.shop.
Proof.
  intros env.
  assert (Hp : posts_image env Sample.png).
  { repeat split; try reflexivity. vm_compute; discriminate. }
  destruct (provider_failures env Sample.shop Sample.png Hp) as (Hrejects & _ & _).
  destruct (Hrejects (or_introl eq_refl)) as (Hresp & _ & Hstore).
  split; [exact Hp|]. split; assumption.
Defined.

Lemma POST_no_user_row env file data sd r a u w :
  Bears env file data sd r a ->
  getUser env = Some u -> user_tier (store w) (id u) = None ->
  ~ recorded (store w) r ->
  POST env w =
  (Returned server_error,
   log [EvFetch (file_bytes file); EvSelectSlip r; EvSelectUserLimit (id u);
        EvConsoleError "Error verifying slip:"] w).
Proof.
  intros Hb Hu Htier Hfresh.
  rewrite (POST_bears env file data sd r a Hb). unfold try_catch.
  rewrite (slip_unused _ _ Hfresh), Hu.
  unfold bind at 1. rewrite checkDepositLimits_run. cbn [log store].
  rewrite Htier. now same_world.
Qed.

(** X5. Two edges of the tier lookup in [checkDepositLimits], for a
    submission that reaches it. A session user with no row in [users] makes
    the function throw (it reads [depositLimit] of [undefined]): the answer
    is [server_error] 500. A row whose [depositLimitId] names no row of
    [depositLimits] is treated as a row without a tier: the answer is
    [deposit_limit_exceeded] with 'No deposit limit set for user'. The
    store is untouched in both. *)
Theorem tier_lookup_edges env file data sd r a u s :
  Bears env file data sd r a ->
  getUser env = Some u ->
  ~ recorded s r ->
  (find (fun row => users_id row =? id u) (users s) = None ->
     response_of env s = Returned server_error /\
     store_after env s = s /\
     trace_of env s =
       [EvFetch (file_bytes file); EvSelectSlip r; EvSelectUserLimit (id u);
        EvConsoleError "Error verifying slip:"]) /\
  (forall row i,
     find (fun row => users_id row =? id u) (users s) = Some row ->
     users_depositLimitId row = Some i ->
     find (fun d => dl_id d =? i) (depositLimits s) = None ->
     response_of env s = Returned (deposit_limit_exceeded NoDepositLimitSet) /\
     store_after env s = s).
Proof.
  intros Hb Hu Hfresh. unfold response_of, store_after, trace_of. split.
  - intros Hrow.
    assert (Htier : user_tier s (id u) = None) by (unfold user_tier; now rewrite Hrow).
    rewrite (POST_no_user_row env file data sd r a u (start s) Hb Hu Htier Hfresh).
    repeat split.
  - intros row i Hrow Hid Hnone.
    assert (Htier : user_tier s (id u) = Some None)
      by (unfold user_tier; now rewrite Hrow, Hid, Hnone).
    rewrite (POST_no_tier env file data sd r a Hb u (start s) Hu Htier Hfresh).
    repeat split.
Qed.

Lemma tier_lookup_edges_witness :
  let carol := {| id := 3; name := Some "Carol"; email := "carol@example.com" |} in
  let env := Sample.request (Some carol) (Sample.form "2000")
               (Sample.slip (Some Sample.merchant_account) (Some Scenario.r2) 2000)
               true None in
  find (fun row => users_id row =? 3) (users Sample.shop) = None /\
  response_of env Sample.shop = Returned server_error /\
  store_after env Sample.shop = Sample.shop.
Proof.
  intros carol env.
  assert (Hb : Bears env Sample.png
                 (Sample.slip (Some Sample.merchant_account) (Some Scenario.r2) 2000)
                 (Sample.slip_data (Some Sample.merchant_account) (Some Scenario.r2) 2000)
                 Scenario.r2 2000).
  { constructor; try reflexivity; [|discriminate].
    repeat split; try reflexivity. vm_compute; discriminate. }
  destruct (tier_lookup_edges env _ _ _ _ _ carol Sample.shop Hb eq_refl r2_fresh)
    as [Hmissing _].
  destruct (Hmissing eq_refl) as (Hresp & Hstore & _).
  split; [reflexivity|]. split; assumption.
Defined.

(** X6. A session user whose id is [0] is taken for no user by
    [user?.id || null] and by [if (!userId)]: the limit check is made, the
    settlement throws 'User ID is required' before the transaction begins,
    and the answer is [server_error] 500 with the store untouched. *)
Theorem user_id_zero_is_no_user env file data sd r a u d s :
  Bears env file data sd r a ->
  getUser env = Some u -> id u = 0 ->
  ~ recorded s r ->
  user_tier s (id u) = Some (Some d) ->
  exceeds (todayTotal env s (id u)) a (dl_dailyLimit d) = false ->
  response_of env s = Returned server_error /\
  store_after env s = s /\
  trace_of env s =
    [EvFetch (file_bytes file); EvSelectSlip r;
     EvSelectUserLimit 0; EvSelectDailyTotal 0;
     EvConsoleError "Error verifying slip:"] /\
  (forall w, recordVerifiedSlip env r a (user_id_or_null (getUser env)) w =
             (Thrown (ErrorMessage "User ID is required"), w)).
Proof.
  intros Hb Hu Hid Hfresh Htier Hle.
  unfold response_of, store_after, trace_of.
  rewrite (POST_unusable_id env file data sd r a u d (start s) Hb Hu Hid Htier Hfresh Hle).
  rewrite Hid. repeat split.
  intros w. rewrite Hu. unfold user_id_or_null, truthy_number. now rewrite Hid.
Qed.

Lemma user_id_zero_is_no_user_witness :
  let zero := {| id := 0; name := None; email := "zero@example.com" |} in
  let s := {| paymentTransactions := [];
              userBalances := [ {| ub_userId := 0; ub_balance := 10; ub_updatedAt := 0 |} ];
              users := [ {| users_id := 0; users_depositLimitId := Some 1 |} ];
              depositLimits := [ Scenario.level1 ] |} in
  let env := Sample.request (Some zero) (Sample.form "2000")
               (Sample.slip (Some Sample.merchant_account) (Some Scenario.r2) 2000)
               true None in
  response_of env s = Returned server_error /\ store_after env s = s.
Proof.
  intros zero s env.
  assert (Hb : Bears env Sample.png
                 (Sample.slip (Some Sample.merchant_account) (Some Scenario.r2) 2000)
                 (Sample.slip_data (Some Sample.merchant_account) (Some Scenario.r2) 2000)
                 Scenario.r2 2000).
  { constructor; try reflexivity; [|discriminate].
    repeat split; try reflexivity. vm_compute; discriminate. }
  assert (Hfresh : ~ recorded s Scenario.r2) by (intros (p & [] & _)).
  destruct (user_id_zero_is_no_user env _ _ _ _ _ zero Scenario.level1 s
              Hb eq_refl eq_refl Hfresh eq_refl)
    as (Hresp & Hstore & _).
  - reflexivity.
  - split; assumption.
Defined.

Lemma credit_no_row uid a date l :
  find (fun b => ub_userId b =? uid) l = None ->
  map (credit uid a date) l = l.
Proof.
  induction l as [|b l IH]; cbn [find map]; [reflexivity|].
  unfold credit at 1. destruct (ub_userId b =? uid); [discriminate|].
  intros H. now rewrite IH.
Qed.

(** X7. The balance update of the settlement is an [UPDATE ... WHERE
    userId = ...]: for a user without a row in [userBalances] the
    transaction still commits, the payment row is inserted, and no balance
    row is created or changed. *)
Theorem settlement_without_balance_row env file data sd r a u d s :
  Bears env file data sd r a ->
  getUser env = Some u -> id u <> 0 ->
  ~ recorded s r ->
  user_tier s (id u) = Some (Some d) ->
  exceeds (todayTotal env s (id u)) a (dl_dailyLimit d) = false ->
  storeFault env = None ->
  balance_of s (id u) = None ->
  paymentTransactions (store_after env s) =
    paymentTransactions s ++ [new_payment r a (id u) (now env)] /\
  userBalances (store_after env s) = userBalances s /\
  balance_of (store_after env s) (id u) = None /\
  In EvCommit (trace_of env s).
Proof.
  intros Hb Hu Hid Hfresh Htier Hle Hfault Hnone.
  rewrite (store_after_within_limit env file data sd r a u d s) by assumption.
  rewrite (trace_within_limit env file data sd r a u d s) by assumption.
  rewrite Hfault.
  assert (Hrows : find (fun b => ub_userId b =? id u) (userBalances s) = None).
  { unfold balance_of in Hnone.
    destruct (find _ (userBalances s)); [discriminate|reflexivity]. }
  assert (Hsame : userBalances (settled env r a (id u) s) = userBalances s).
  { unfold settled, update_balance, insert_payment; cbn [userBalances].
    now apply credit_no_row. }
  split; [reflexivity|]. split; [exact Hsame|]. split.
  - unfold balance_of. now rewrite Hsame, Hrows.
  - apply in_or_app. left. unfold settlement_events. cbn. tauto.
Qed.

Lemma settlement_without_balance_row_witness :
  let s := {| paymentTransactions := paymentTransactions Sample.shop;
              userBalances := [];
              users := users Sample.shop;
              depositLimits := depositLimits Sample.shop |} in
  let env := Scenario.deposit 2000 true None in
  balance_of s 1 = None /\
  List.length (paymentTransactions (store_after env s)) = 2%nat /\
  userBalances (store_after env s) = [].
Proof.
  intros s env.
  assert (Hfresh : ~ recorded s Scenario.r2).
  { intros (p & [<-|[]] & Hp). discriminate Hp. }
  destruct (settlement_without_balance_row env _ _ _ _ _ Sample.alice
              Scenario.level1 s (deposit_bears 2000 true None) eq_refl
              ltac:(discriminate) Hfresh eq_refl)
    as (Hrows & Hbal & _).
  - reflexivity.
  - reflexivity.
  - reflexivity.
  - split; [reflexivity|]. split; [now rewrite Hrows | exact Hbal].
Defined.

Lemma select_dailyTotal_insert p s uid today :
  select_dailyTotal (insert_payment p s) uid today =
  select_dailyTotal s uid today +
  (if (pt_userId p =? uid) && (today <=? pt_createdAt p) then pt_amount p else 0).
Proof.
  unfold select_dailyTotal, insert_payment; cbn [paymentTransactions].
  rewrite filter_app, map_app, sum_app. f_equal.
  cbn [filter]. destruct ((pt_userId p =? uid) && (today <=? pt_createdAt p));
    cbn; lia.
Qed.

(** X8. What counts against the daily limit. For a user on a tier, the
    verdict of [checkDepositLimits] is not changed by a payment row of
    another user, nor by a row created before the local midnight of the
    host; a row of the user created since that midnight counts with its
    amount, whatever its method or status. *)
Theorem daily_window env uid a d s p :
  user_tier s uid = Some (Some d) ->
  let verdict := fun s' => fst (checkDepositLimits env uid a (start s')) in
  (pt_userId p <> uid \/ pt_createdAt p < localMidnight env (now env) ->
     verdict (insert_payment p s) = verdict s) /\
  (pt_userId p = uid ->
   localMidnight env (now env) <= pt_createdAt p ->
     verdict (insert_payment p s) =
     Returned (limit_verdict (todayTotal env s uid + pt_amount p) a (dl_dailyLimit d))).
Proof.
  intros Htier verdict. subst verdict. cbv beta.
  rewrite !checkDepositLimits_run. cbn [start store].
  assert (Htier' : user_tier (insert_payment p s) uid = Some (Some d)) by exact Htier.
  rewrite Htier', Htier. cbn [fst]. unfold todayTotal.
  rewrite select_dailyTotal_insert. split.
  - intros Hout.
    assert (Hno : (pt_userId p =? uid) &&
                  (localMidnight env (now env) <=? pt_createdAt p) = false).
    { apply andb_false_iff. destruct Hout as [Hu | Hc].
      - left. now apply Z.eqb_neq.
      - right. apply Z.leb_gt. exact Hc. }
    rewrite Hno. now rewrite Z.add_0_r.
  - intros Hu Hc.
    now rewrite (proj2 (Z.eqb_eq _ _) Hu), (proj2 (Z.leb_le _ _) Hc).
Qed.

Lemma daily_window_witness :
  let env := Scenario.deposit 2000 true None in
  let old := new_payment "2024043000009" 5000 1 (Sample.ten_am - 11 * 3600000) in
  let fresh := new_payment "2024050100008" 1000 1 (Sample.ten_am - 60000) in
  fst (checkDepositLimits env 1 2000 (start (insert_payment old Sample.shop))) =
    fst (checkDepositLimits env 1 2000 (start Sample.shop)) /\
  fst (checkDepositLimits env 1 2000 (start (insert_payment fresh Sample.shop))) =
    Returned {| allowed := false;
                check_message := Some (WouldExceedDailyLimit 50000) |}.
Proof.
  intros env old fresh.
  destruct (daily_window env 1 2000 Scenario.level1 Sample.shop old eq_refl)
    as [Hold _].
  destruct (daily_window env 1 2000 Scenario.level1 Sample.shop fresh eq_refl)
    as [_ Hfresh].
  split.
  - apply Hold. right. reflexivity.
  - rewrite Hfresh; [reflexivity | reflexivity | vm_compute; discriminate].
Defined.

(** ** Invariants of sequences of requests *)

Lemma paid_settled env r a uid s v :
  paid (settled env r a uid s) v = paid s v + (if uid =? v then a else 0).
Proof.
  unfold paid, settled, update_balance, insert_payment; cbn [paymentTransactions].
  rewrite filter_app, map_app, sum_app. f_equal.
  cbn [filter new_payment pt_userId].
  destruct (uid =? v); cbn; lia.
Qed.

Lemma balance_of_settled_any env r a uid s v :
  balance_of (settled env r a uid s) v =
  option_map (fun b => b + (if uid =? v then a else 0)) (balance_of s v).
Proof.
  destruct (Z.eq_dec v uid) as [->|Hne].
  - rewrite Z.eqb_refl.
    destruct (balance_of s uid) as [b|] eqn:Hb.
    + now rewrite (balance_of_settled env r a uid s b Hb).
    + unfold balance_of in *.
      unfold settled, update_balance, insert_payment; cbn [userBalances].
      rewrite find_credit.
      destruct (find _ (userBalances s)); [discriminate|reflexivity].
  - rewrite (balance_of_settled_other env r a uid s v Hne).
    assert (E : (uid =? v) = false) by (apply Z.eqb_neq; congruence).
    rewrite E. destruct (balance_of s v); cbn [option_map]; [|reflexivity].
    f_equal. lia.
Qed.

(** X9. The ledger stays consistent over any sequence of requests: for a
    user with a balance row, the balance at the end is the balance at the
    start plus the amounts of the payment rows added for that user. *)
Theorem ledger_invariant envs : forall s v b,
  balance_of s v = Some b ->
  balance_of (run_requests envs s) v =
  Some (b + (paid (run_requests envs s) v - paid s v)).
Proof.
  induction envs as [|env envs IH]; intros s v b Hb; cbn [run_requests].
  - rewrite Hb. f_equal. lia.
  - destruct (store_after_cases env s) as [-> | (u & r & a & _ & _ & ->)].
    + now apply IH.
    + rewrite (IH _ v (b + (if id u =? v then a else 0))).
      * f_equal. rewrite paid_settled. lia.
      * rewrite balance_of_settled_any, Hb. reflexivity.
Qed.

Lemma ledger_invariant_witness :
  let envs := [ Scenario.deposit 1500 true None;
                Scenario.bob_submits Sample.merchant_account (Some "2024050100003");
                Scenario.deposit 400 false None ] in
  balance_of (run_requests envs Sample.shop) 1 =
  Some (48100 + (paid (run_requests envs Sample.shop) 1 - paid Sample.shop 1)).
Proof.
  intros envs. apply (ledger_invariant envs Sample.shop 1 48100). reflexivity.
Defined.

Lemma NoDup_snoc {A} (l : list A) (x : A) : NoDup l -> ~ In x l -> NoDup (l ++ [x]).
Proof.
  induction l as [|y l IH]; intros Hl Hx; cbn [app].
  - constructor; [intros []|constructor].
  - inversion Hl as [|? ? Hy Hl']; subst. constructor.
    + intros Hin. apply in_app_or in Hin. destruct Hin as [Hin | [<- | []]].
      * contradiction.
      * apply Hx. now left.
    + apply IH; [exact Hl'|]. intros Hin. apply Hx. now right.
Qed.

Lemma slip_used_transRefs s r : slip_used s r = false -> ~ In r (transRefs s).
Proof.
  intros Hused Hin. unfold transRefs in Hin. apply in_map_iff in Hin.
  destruct Hin as (p & Hp & Hin).
  assert (Hrec : recorded s r) by (exists p; auto).
  apply slip_used_recorded in Hrec. congruence.
Qed.

(** X10. Handled one after the other, requests never record a transfer
    reference twice: if the references of the payment rows are pairwise
    distinct, they still are after any sequence of requests. *)
Theorem transRefs_stay_distinct envs : forall s,
  NoDup (transRefs s) -> NoDup (transRefs (run_requests envs s)).
Proof.
  induction envs as [|env envs IH]; intros s Hs; cbn [run_requests]; [exact Hs|].
  apply IH. unfold store_after.
  destruct (POST_handled env (start s)) as (resp & w' & Hrun & Hh).
  rewrite Hrun. cbn [snd].
  destruct Hh as [ ? ? ? _ _ -> _ _ | ? _ -> _ _ | ? _ -> _
                 | u r a ? _ -> _ _ _ Hused _ _ _ ]; try exact Hs.
  cbn [start store] in *.
  unfold transRefs, settled, update_balance, insert_payment;
    cbn [paymentTransactions].
  rewrite map_app. cbn [map new_payment pt_transRef].
  apply NoDup_snoc; [exact Hs|]. now apply slip_used_transRefs.
Qed.

Lemma transRefs_stay_distinct_witness :
  let envs := [ Scenario.deposit 1500 true None;
                Scenario.bob_submits Sample.merchant_account (Some Scenario.r2);
                Scenario.deposit 400 true None ] in
  transRefs (run_requests envs Sample.shop) = ["2024050100001"; Scenario.r2] /\
  NoDup (transRefs (run_requests envs Sample.shop)).
Proof.
  intros envs. split; [reflexivity|].
  apply transRefs_stay_distinct. cbn. constructor; [intros []|constructor].
Defined.

(** X11. The handler only ever appends to [paymentTransactions] and only
    ever updates balances in place: after any sequence of requests the
    payment rows at the start are still there, in front and unchanged, the
    rows added are completed bank deposits with a non-empty reference, the
    [users] and [depositLimits] tables are as they were, and
    [userBalances] has the same rows for the same users. *)
Theorem store_is_append_only envs : forall s,
  exists rows,
    paymentTransactions (run_requests envs s) = paymentTransactions s ++ rows /\
    Forall bank_deposit_row rows /\
    users (run_requests envs s) = users s /\
    depositLimits (run_requests envs s) = depositLimits s /\
    map ub_userId (userBalances (run_requests envs s)) =
      map ub_userId (userBalances s).
Proof.
  induction envs as [|env envs IH]; intros s; cbn [run_requests].
  - exists []. rewrite app_nil_r. repeat split. constructor.
  - destruct (IH (store_after env s)) as (rows & Hp & Hrows & Hu & Hd & Hb).
    destruct (store_after_cases env s)
      as [Hs | (u & r & a & _ & (file & data & sd & Hbears) & Hs)];
      rewrite Hs in *.
    + exists rows. auto.
    + exists (new_payment r a (id u) (now env) :: rows).
      rewrite Hp, Hu, Hd, Hb.
      unfold settled, update_balance, insert_payment;
        cbn [paymentTransactions users depositLimits userBalances].
      rewrite <- app_assoc. split; [reflexivity|]. split.
      * constructor; [|exact Hrows].
        repeat split. cbn. exact (bears_nonempty _ _ _ _ _ _ Hbears).
      * repeat split. rewrite map_map. apply map_ext.
        intros b. unfold credit. destruct (ub_userId b =? id u); reflexivity.
Qed.

(** X13. A notification is sent only for a settlement that has committed,
    directly after the commit, once, and with the name of the session user
    and the amount and reference that were settled; a request that leaves
    the store as it was commits nothing and notifies nobody. *)
Theorem notification_follows_commit env s :
  (store_after env s = s /\
   notifications (trace_of env s) = [] /\
   ~ In EvCommit (trace_of env s)) \/
  (exists u r a pre post,
     getUser env = Some u /\
     store_after env s = settled env r a (id u) s /\
     trace_of env s = pre ++ [EvCommit; EvNotify (user_display u) a r] ++ post /\
     notifications (trace_of env s) = [EvNotify (user_display u) a r]).
Proof.
  unfold store_after, trace_of.
  destruct (POST_ended env (start s)) as (resp & w' & Hrun & He).
  rewrite Hrun. cbn [snd].
  destruct He as [evs Hs Ht Hq | u r a pre post Hs Ht Hpre Hpost Hu _];
    rewrite Hs, Ht; cbn [start store trace app].
  - left. split; [reflexivity|]. split.
    + now apply notifications_quiet.
    + now apply quiet_no_commit.
  - right. exists u, r, a, pre, post. repeat split; auto.
    apply notifications_quiet in Hpre, Hpost.
    unfold notifications in *. rewrite !filter_app, Hpre.
    cbn [filter app]. now rewrite Hpost.
Qed.

(** X14. What [success] means for a slip that carries a reference: when a
    submission bearing [r] is answered [success], the deposit has been
    settled by this very request, for the session user and the verified
    amount, and [r] is recorded from then on; it was not recorded before. *)
Theorem success_means_settled env file data sd r a s :
  Bears env file data sd r a ->
  response_of env s = Returned success ->
  exists u,
    getUser env = Some u /\
    ~ recorded s r /\
    store_after env s = settled env r a (id u) s /\
    recorded (store_after env s) r.
Proof.
  intros Hb Hresp. unfold response_of in Hresp.
  assert (Hfresh : ~ recorded s r).
  { intros Hrec.
    rewrite (POST_duplicate env file data sd r a Hb (start s) Hrec) in Hresp.
    discriminate. }
  destruct (getUser env) as [u|] eqn:Hu.
  2:{ rewrite (POST_anonymous env file data sd r a Hb (start s) Hu Hfresh) in Hresp.
      discriminate. }
  exists u. split; [reflexivity|]. split; [exact Hfresh|].
  destruct (user_tier s (id u)) as [[d|]|] eqn:Htier.
  - destruct (exceeds (todayTotal env s (id u)) a (dl_dailyLimit d)) eqn:Hle.
    { rewrite (POST_over_limit env file data sd r a Hb u d (start s)
                 Hu Htier Hfresh Hle) in Hresp. discriminate. }
    destruct (Z.eq_dec (id u) 0) as [Hz|Hnz].
    { rewrite (POST_unusable_id env file data sd r a u d (start s)
                 Hb Hu Hz Htier Hfresh Hle) in Hresp. discriminate. }
    pose proof (response_within_limit env file data sd r a u d s
                  Hb Hu Hnz Hfresh Htier Hle) as Hr.
    unfold response_of in Hr. rewrite Hr in Hresp.
    rewrite (store_after_within_limit env file data sd r a u d s
               Hb Hu Hnz Hfresh Htier Hle).
    destruct (storeFault env); [discriminate|].
    split; [reflexivity|].
    exists (new_payment r a (id u) (now env)). split; [|reflexivity].
    unfold settled, update_balance, insert_payment; cbn [paymentTransactions].
    apply in_or_app. right. now left.
  - rewrite (POST_no_tier env file data sd r a Hb u (start s) Hu Htier Hfresh)
      in Hresp. discriminate.
  - rewrite (POST_no_user_row env file data sd r a u (start s) Hb Hu Htier Hfresh)
      in Hresp. discriminate.
Qed.

Lemma success_means_settled_witness :
  let env := Scenario.deposit 2000 true None in
  response_of env Sample.shop = Returned success /\
  store_after env Sample.shop = settled env Scenario.r2 2000 1 Sample.shop.
Proof.
  intros env.
  destruct (success_means_settled env _ _ _ _ _ Sample.shop
              (deposit_bears 2000 true None) eq_refl)
    as (u & Hu & _ & Hs & _).
  injection Hu as <-. split; [reflexivity|exact Hs].
Defined.

(** * Properties of the deposit page *)

Lemma submit_slip_sent refresh env s st :
  DepositPage.sent (DepositPage.submit_slip refresh env s st) =
    DepositPage.SentSlip (slip_body st) /\
  DepositPage.server (DepositPage.submit_slip refresh env s st) =
    store_after (with_formData env (slip_body st)) s /\
  DepositPage.redirect (DepositPage.submit_slip refresh env s st) = None.
Proof.
  unfold DepositPage.submit_slip, store_after. fold (slip_body st).
  destruct (POST (with_formData env (slip_body st)) (start s)) as [[data|e] w].
  - destruct (negb (DepositPage.ok data)).
    + destruct (String.eqb (body_message data) "slip_already_used");
        [repeat split|].
      destruct (String.eqb (body_message data) "deposit_limit_exceeded");
        repeat split.
    + destruct (body_status data =? 200); repeat split.
  - repeat split.
Qed.




Ltac answers :=
  do 2 eexists; split; [reflexivity | cbn; tauto].

Lemma record_and_notify_messages env r a w :
  exists resp w',
    try_catch (record_and_notify env r a) catch_all w = (Returned resp, w') /\
    In (body_message resp) later_messages.
Proof.
  unfold try_catch.
  destruct (getUser env) as [u|] eqn:Hu.
  - destruct (Z.eq_dec (id u) 0) as [Hz|Hnz].
    + rewrite record_and_notify_null
        by (rewrite Hu; unfold user_id_or_null, truthy_number; now rewrite Hz).
      answers.
    + rewrite (record_and_notify_run _ _ _ _ _ Hu Hnz).
      destruct (storeFault env) as [[]|]; try answers.
      cbv zeta. destruct (sendDepositNotification env _); answers.
  - rewrite record_and_notify_null by (now rewrite Hu). answers.
Qed.

Lemma settle_messages env sd w :
  exists resp w',
    try_catch (settle env sd) catch_all w = (Returned resp, w') /\
    In (body_message resp) later_messages.
Proof.
  destruct (EasySlip.transRef sd) as [r|] eqn:Hr;
    [ destruct (String.eqb r "") eqn:Hempty | ].
  - unfold try_catch, settle, truthy_string. rewrite Hr, Hempty. answers.
  - assert (Hne : r <> "") by (intros ->; discriminate).
    unfold try_catch. rewrite (settle_bears env sd r _ _ Hr Hne eq_refl).
    destruct (slip_used (store w) r); [answers|].
    destruct (getUser env) as [u|] eqn:Hu.
    + unfold bind at 1. rewrite checkDepositLimits_run. cbn [log store].
      destruct (user_tier (store w) (id u)) as [[d|]|]; [ | answers | answers ].
      rewrite limit_verdict_allowed, negb_involutive.
      destruct (exceeds _ _ _); [answers|].
      apply record_and_notify_messages.
    + apply record_and_notify_messages.
  - unfold try_catch, settle. rewrite Hr. answers.
Qed.

Lemma POST_after_file_checks env file w :
  posts_image env file ->
  exists resp w',
    POST env w = (Returned resp, w') /\
    In (body_message resp) later_messages.
Proof.
  intros (Hget & Hle & Htype).
  assert (Hsize : (file_size file >? maxFileSize) = false)
    by (rewrite Z.gtb_ltb; now apply Z.ltb_ge).
  unfold POST, try_catch at 1, POST_try.
  rewrite Hget, Hsize, Htype. cbn [negb]. unfold bind at 1, emit at 1.
  destruct (easyslip env (file_bytes file)) as [|[] [|data]]; try answers.
  destruct (EasySlip.data data) as [sd|]; [|answers].
  destruct (validateReceiver data); cbn [negb]; [|answers].
  apply settle_messages.
Qed.

Lemma sent_slip_selected createPayment refresh env s st body :
  DepositPage.sent (DepositPage.handleDeposit createPayment refresh env s st) =
    DepositPage.SentSlip body ->
  exists file, DepositPage.selectedFile st = Some file /\ body = slip_body st.
Proof.
  unfold DepositPage.handleDeposit. cbv zeta.
  destruct (DepositPage.method_is st "bank"); cbn [andb].
  - destruct (DepositPage.selectedFile st) as [file|]; cbn [orb]; [|discriminate].
    destruct (negb _); [discriminate|].
    destruct (is_nan _ || _); [discriminate|].
    destruct (match DepositPage.depositLimit st with
              | Some limit => _ | None => false end); [discriminate|].
    destruct (submit_slip_sent refresh env s st) as (-> & _).
    intros [= <-]. eauto.
  - destruct (is_nan _ || _); [discriminate|].
    destruct (match DepositPage.depositLimit st with
              | Some limit => _ | None => false end); [discriminate|].
    destruct (DepositPage.method_is st "card"); [|discriminate].
    unfold DepositPage.submit_card. destruct (createPayment _); discriminate.
Qed.

Lemma handleFileChange_acceptable files st :
  (forall f, DepositPage.selectedFile st = Some f -> acceptable f) ->
  forall f, DepositPage.selectedFile (fst (DepositPage.handleFileChange files st)) = Some f ->
            acceptable f.
Proof.
  intros Hst f. unfold DepositPage.handleFileChange.
  destruct files as [|file rest]; [apply Hst|].
  change (10 * 1024 * 1024) with 10485760.
  destruct (file_size file >? 10485760) eqn:Hsize; [apply Hst|].
  destruct (String.prefix "image/" (file_type file)) eqn:Htype; [|apply Hst].
  cbn. intros [= <-]. split; [|exact Htype].
  rewrite Z.gtb_ltb in Hsize. now apply Z.ltb_ge.
Qed.

Lemma picks_acceptable picks : forall st,
  (forall f, DepositPage.selectedFile st = Some f -> acceptable f) ->
  forall f,
    DepositPage.selectedFile
      (fold_left (fun st files => fst (DepositPage.handleFileChange files st))
                 picks st) = Some f ->
    acceptable f.
Proof.
  induction picks as [|files picks IH]; intros st Hst; cbn [fold_left]; [exact Hst|].
  apply IH. now apply handleFileChange_acceptable.
Qed.

Lemma POST_posts_first env file s :
  posts_image env file ->
  exists evs, trace_of env s = EvFetch (file_bytes file) :: evs.
Proof.
  intros (Hget & Hle & Htype).
  assert (Hsize : (file_size file >? maxFileSize) = false)
    by (rewrite Z.gtb_ltb; now apply Z.ltb_ge).
  unfold trace_of, POST, try_catch, POST_try.
  rewrite Hget, Hsize, Htype. cbn [negb]. unfold bind at 1, emit at 1.
  cbn [start store trace app].
  destruct (easyslip env (file_bytes file)) as [|[] [|data]];
    try (eexists; reflexivity).
  destruct (EasySlip.data data) as [sd|]; [|eexists; reflexivity].
  destruct (validateReceiver data); cbn [negb]; [|eexists; reflexivity].
  destruct (trace_extends env sd
              {| store := s; trace := [EvFetch (file_bytes file)] |})
    as (evs & Hevs).
  exists evs. unfold try_catch, catch_all in Hevs. exact Hevs.
Qed.

(** X16. The page and the handler agree on the file. A slip that the page
    sends was kept by [handleFileChange] (the selection starts empty and
    only [handleFileChange] sets it), so it is at most 10 MB and of an
    image type; the handler then never answers [invalid_payload],
    [image_size_too_large] or [invalid_image] to the page, and calls the
    provider with that file first. *)
Theorem page_slip_passes_file_checks createPayment refresh env s picks st0 st body :
  DepositPage.selectedFile st0 = None ->
  DepositPage.selectedFile st =
    DepositPage.selectedFile
      (fold_left (fun st files => fst (DepositPage.handleFileChange files st))
                 picks st0) ->
  DepositPage.sent (DepositPage.handleDeposit createPayment refresh env s st) =
    DepositPage.SentSlip body ->
  exists file resp evs,
    DepositPage.selectedFile st = Some file /\
    acceptable file /\
    response_of (with_formData env body) s = Returned resp /\
    In (body_message resp) later_messages /\
    trace_of (with_formData env body) s = EvFetch (file_bytes file) :: evs.
Proof.
  intros Hstart Hpicked Hsent.
  assert (Hacc : forall f, DepositPage.selectedFile st = Some f -> acceptable f).
  { rewrite Hpicked. apply picks_acceptable.
    intros f Hf. rewrite Hstart in Hf. discriminate. }
  destruct (sent_slip_selected createPayment refresh env s st body Hsent)
    as (file & Hfile & ->).
  assert (Hposts : posts_image (with_formData env (slip_body st)) file).
  { destruct (Hacc file Hfile) as [Hle Htype].
    unfold posts_image, slip_body. rewrite Hfile. repeat split; assumption. }
  destruct (POST_after_file_checks _ file (start s) Hposts)
    as (resp & w' & Hrun & Hmsg).
  destruct (POST_posts_first _ file s Hposts) as (evs & Hevs).
  exists file, resp, evs. repeat split; try (apply Hacc; exact Hfile); auto.
  unfold response_of. now rewrite Hrun.
Qed.

Lemma page_slip_passes_file_checks_witness :
  let env := Scenario.deposit 2000 true None in
  let st0 := PageSample.filled None in
  let st := PageSample.filled (Some Sample.png) in
  exists resp evs,
    response_of (with_formData env (slip_body st)) Sample.shop = Returned resp /\
    In (body_message resp) later_messages /\
    trace_of (with_formData env (slip_body st)) Sample.shop = EvFetch "PNG" :: evs.
Proof.
  intros env st0 st.
  destruct (page_slip_passes_file_checks PageSample.createPayment PageSample.refresh
              env Sample.shop [[Sample.png]] st0 st (slip_body st)
              eq_refl eq_refl eq_refl)
    as (file & resp & evs & Hfile & _ & Hresp & Hmsg & Htrace).
  injection Hfile as <-. exists resp, evs. auto.
Defined.

Lemma sent_slip_submits createPayment refresh env s st body :
  DepositPage.sent (DepositPage.handleDeposit createPayment refresh env s st) =
    DepositPage.SentSlip body ->
  forall env' s',
    DepositPage.handleDeposit createPayment refresh env' s' st =
    DepositPage.submit_slip refresh env' s' st.
Proof.
  unfold DepositPage.handleDeposit. cbv zeta.
  destruct (DepositPage.method_is st "bank"); cbn [andb].
  - destruct (DepositPage.selectedFile st) as [file|]; cbn [orb]; [|discriminate].
    destruct (negb _); [discriminate|].
    destruct (is_nan _ || _); [discriminate|].
    destruct (match DepositPage.depositLimit st with
              | Some limit => _ | None => false end); [discriminate|].
    reflexivity.
  - destruct (is_nan _ || _); [discriminate|].
    destruct (match DepositPage.depositLimit st with
              | Some limit => _ | None => false end); [discriminate|].
    destruct (DepositPage.method_is st "card"); [|discriminate].
    unfold DepositPage.submit_card. destruct (createPayment _); discriminate.
Qed.

(** The page's reading of an answer of the handler. *)
Lemma submit_slip_reads refresh env s st resp :
  response_of (with_formData env (slip_body st)) s = Returned resp ->
  let result := DepositPage.submit_slip refresh env s st in
  let refreshed := refresh (DepositPage.server result) in
  (resp = success ->
     DepositPage.toasts result =
       DepositPage.toast_success (DepositPage.Text DepositPage.verified) ::
       (if DepositPage.throws refreshed
        then [DepositPage.toast_error (DepositPage.Text DepositPage.failed)]
        else []) /\
     DepositPage.state result = DepositPage.reset st (DepositPage.todayTotal refreshed)) /\
  (resp <> success ->
     DepositPage.toasts result = [DepositPage.toast_error (failure_toast resp)] /\
     DepositPage.state result = st).
Proof.
  unfold response_of. cbv zeta. unfold DepositPage.submit_slip. fold (slip_body st).
  destruct (POST_handled (with_formData env (slip_body st)) (start s))
    as (resp' & w' & Hrun & Hh).
  rewrite Hrun. cbn [fst]. intros [= <-].
  assert (Hforms : resp' = success \/ resp' = server_error \/
                   exists msg details, resp' = json 400 msg details 400).
  { destruct Hh as [ msg details evs -> _ _ _ _ | evs -> _ _ _ | evs -> _ _
                   | u r a evs -> _ _ _ _ _ _ _ _ ]; eauto.
    destruct (sendDepositNotification _ _); auto. }
  destruct Hforms as [-> | [-> | (msg & details & ->)]].
  - split; [intros _; split; reflexivity|]. intros Hne. now contradiction Hne.
  - split; [discriminate|]. intros _. split; reflexivity.
  - split; [discriminate|]. intros _. unfold failure_toast. cbn.
    destruct (String.eqb msg "slip_already_used"); [split; reflexivity|].
    destruct (String.eqb msg "deposit_limit_exceeded"); split; reflexivity.
Qed.

Lemma Response_eq_success resp : resp = success \/ resp <> success.
Proof.
  destruct resp as [h b m d]. unfold success, json.
  destruct (Z.eq_dec h 200) as [->|]; [|right; congruence].
  destruct (Z.eq_dec b 200) as [->|]; [|right; congruence].
  destruct (string_dec m "success") as [->|]; [|right; congruence].
  destruct d; [right; discriminate | now left].
Qed.

(** X17. What the user is told. For a slip the page has sent, the page
    shows the success toast and clears the form exactly when the handler
    answers [success]; for any other answer it keeps the form and shows one
    error toast: the duplicate text for [slip_already_used], the handler's
    details for [deposit_limit_exceeded], and the general failure text for
    everything else, [server_error] and the other rejections alike. *)
Theorem page_reports_the_answer createPayment refresh env s st body resp :
  DepositPage.sent (DepositPage.handleDeposit createPayment refresh env s st) =
    DepositPage.SentSlip body ->
  response_of (with_formData env body) s = Returned resp ->
  let result := DepositPage.handleDeposit createPayment refresh env s st in
  (In (DepositPage.toast_success (DepositPage.Text DepositPage.verified))
      (DepositPage.toasts result) <-> resp = success) /\
  (resp = success ->
     DepositPage.state result =
       DepositPage.reset st
         (DepositPage.todayTotal (refresh (DepositPage.server result)))) /\
  (resp <> success ->
     DepositPage.toasts result = [DepositPage.toast_error (failure_toast resp)] /\
     DepositPage.state result = st).
Proof.
  intros Hsent Hresp. cbv zeta.
  destruct (sent_slip_selected createPayment refresh env s st body Hsent)
    as (file & _ & ->).
  rewrite (sent_slip_submits createPayment refresh env s st _ Hsent env s).
  destruct (submit_slip_reads refresh env s st resp Hresp) as [Hok Hnot].
  split; [|split].
  - split.
    + intros Hin.
      destruct (Response_eq_success resp) as [Heq|Hne]; [exact Heq|].
      destruct (Hnot Hne) as [Ht _]. rewrite Ht in Hin.
      destruct Hin as [Hin|[]]. discriminate.
    + intros Heq. destruct (Hok Heq) as [Ht _]. rewrite Ht. now left.
  - intros Heq. exact (proj2 (Hok Heq)).
  - exact Hnot.
Qed.

Lemma page_reports_the_answer_witness :
  let env := Scenario.deposit 3000 true None in
  let st := PageSample.filled (Some Sample.png) in
  let result := DepositPage.handleDeposit PageSample.createPayment PageSample.refresh
                  env Sample.shop st in
  DepositPage.toasts result =
    [DepositPage.toast_error
       (DepositPage.ServerDetails (Some (DetailsLimit (WouldExceedDailyLimit 50000))))] /\
  DepositPage.state result = st.
Proof.
  intros env st result.
  destruct (page_reports_the_answer PageSample.createPayment PageSample.refresh
              env Sample.shop st (slip_body st)
              (deposit_limit_exceeded (WouldExceedDailyLimit 50000))
              eq_refl eq_refl) as (_ & _ & Hnot).
  apply Hnot. discriminate.
Defined.

(** X18. A deposit that is settled and then reported as failed. When the
    notification throws after the commit, the page shows the general
    failure text and keeps the form, although the deposit is in the store;
    sending the same form again is answered [slip_already_used], the page
    shows the duplicate text, and the store is not touched a second
    time. *)
Theorem settled_but_reported_failed
    createPayment refresh env s st body file data sd r a u d :
  DepositPage.sent (DepositPage.handleDeposit createPayment refresh env s st) =
    DepositPage.SentSlip body ->
  Bears (with_formData env body) file data sd r a ->
  getUser env = Some u -> id u <> 0 ->
  ~ recorded s r ->
  user_tier s (id u) = Some (Some d) ->
  exceeds (todayTotal env s (id u)) a (dl_dailyLimit d) = false ->
  storeFault env = None ->
  sendDepositNotification env (notification u r a) = false ->
  let first := DepositPage.handleDeposit createPayment refresh env s st in
  let second := DepositPage.handleDeposit createPayment refresh env
                  (DepositPage.server first) (DepositPage.state first) in
  DepositPage.toasts first =
    [DepositPage.toast_error (DepositPage.Text DepositPage.failed)] /\
  DepositPage.state first = st /\
  DepositPage.server first = settled env r a (id u) s /\
  DepositPage.toasts second =
    [DepositPage.toast_error (DepositPage.Text DepositPage.slip_used_text)] /\
  DepositPage.server second = DepositPage.server first.
Proof.
  intros Hsent Hb Hu Hid Hfresh Htier Hle Hfault Hnotify. cbv zeta.
  destruct (sent_slip_selected createPayment refresh env s st body Hsent)
    as (file' & _ & ->).
  set (env' := with_formData env (slip_body st)) in *.
  assert (Hresp1 : response_of env' s = Returned server_error).
  { rewrite (response_within_limit env' file data sd r a u d s Hb Hu Hid Hfresh Htier Hle).
    change (storeFault env') with (storeFault env).
    change (sendDepositNotification env') with (sendDepositNotification env).
    now rewrite Hfault, Hnotify. }
  assert (Hstore1 : store_after env' s = settled env r a (id u) s).
  { rewrite (store_after_within_limit env' file data sd r a u d s
               Hb Hu Hid Hfresh Htier Hle).
    change (storeFault env') with (storeFault env). now rewrite Hfault. }
  rewrite (sent_slip_submits createPayment refresh env s st _ Hsent env s).
  destruct (submit_slip_reads refresh env s st server_error Hresp1) as [_ Hnot1].
  destruct (Hnot1 ltac:(discriminate)) as [Ht1 Hst1].
  destruct (submit_slip_sent refresh env s st) as (_ & Hserver1 & _).
  fold env' in Hserver1.
  rewrite Ht1, Hst1, Hserver1, Hstore1.
  split; [reflexivity|]. split; [reflexivity|]. split; [reflexivity|].
  set (s1 := settled env r a (id u) s).
  assert (Hrec : recorded s1 r).
  { exists (new_payment r a (id u) (now env)). split; [|reflexivity].
    unfold s1, settled, update_balance, insert_payment; cbn [paymentTransactions].
    apply in_or_app. right. now left. }
  assert (Hrun2 := POST_duplicate env' file data sd r a Hb (start s1) Hrec).
  rewrite (sent_slip_submits createPayment refresh env s st _ Hsent env s1).
  assert (Hresp2 : response_of env' s1 = Returned slip_already_used)
    by (unfold response_of; now rewrite Hrun2).
  destruct (submit_slip_reads refresh env s1 st slip_already_used Hresp2) as [_ Hnot2].
  destruct (Hnot2 ltac:(discriminate)) as [Ht2 _].
  destruct (submit_slip_sent refresh env s1 st) as (_ & Hserver2 & _).
  rewrite Ht2, Hserver2. fold env'. unfold store_after. rewrite Hrun2.
  split; reflexivity.
Qed.

Lemma settled_but_reported_failed_witness :
  let env := Scenario.deposit 2000 false None in
  let st := PageSample.filled (Some Sample.png) in
  let first := DepositPage.handleDeposit PageSample.createPayment PageSample.refresh
                 env Sample.shop st in
  DepositPage.toasts first =
    [DepositPage.toast_error (DepositPage.Text DepositPage.failed)] /\
  balance_of (DepositPage.server first) 1 = Some 50100.
Proof.
  intros env st first.
  assert (Hb : Bears (with_formData env (slip_body st)) Sample.png
                 (Sample.slip (Some Sample.merchant_account) (Some Scenario.r2) 2000)
                 (Sample.slip_data (Some Sample.merchant_account) (Some Scenario.r2) 2000)
                 Scenario.r2 2000).
  { constructor; try reflexivity; [|discriminate].
    repeat split; try reflexivity. vm_compute; discriminate. }
  destruct (settled_but_reported_failed PageSample.createPayment PageSample.refresh
              env Sample.shop st (slip_body st) _ _ _ _ _ Sample.alice Scenario.level1
              eq_refl Hb eq_refl ltac:(discriminate) r2_fresh eq_refl)
    as (Ht & _ & Hs & _).
  - reflexivity.
  - reflexivity.
  - reflexivity.
  - split; [exact Ht|]. fold first in Hs. rewrite Hs. reflexivity.
Defined.

Lemma refused_for_limit createPayment refresh env s st :
  DepositPage.toasts (DepositPage.handleDeposit createPayment refresh env s st) =
    [DepositPage.toast_error (DepositPage.Text DepositPage.over_limit)] ->
  DepositPage.handleDeposit createPayment refresh env s st =
    DepositPage.refuse st s DepositPage.over_limit \/
  exists body,
    DepositPage.sent (DepositPage.handleDeposit createPayment refresh env s st) =
      DepositPage.SentSlip body.
Proof.
  unfold DepositPage.handleDeposit. cbv zeta.
  destruct (DepositPage.method_is st "bank" && _); [discriminate|].
  destruct (is_nan _ || _); [discriminate|].
  destruct (match DepositPage.depositLimit st with
            | Some limit => _ | None => false end); [now left|].
  destruct (DepositPage.method_is st "bank").
  - intros _. right. destruct (submit_slip_sent refresh env s st) as (-> & _). eauto.
  - destruct (DepositPage.method_is st "card"); [|discriminate].
    unfold DepositPage.submit_card. destruct (createPayment _); discriminate.
Qed.

(** A slip that was sent is never answered with the limit toast of the
    page. *)
Lemma sent_slip_toast createPayment refresh env s st body :
  DepositPage.sent (DepositPage.handleDeposit createPayment refresh env s st) =
    DepositPage.SentSlip body ->
  DepositPage.toasts (DepositPage.handleDeposit createPayment refresh env s st) <>
    [DepositPage.toast_error (DepositPage.Text DepositPage.over_limit)].
Proof.
  intros Hsent Htoast.
  rewrite (sent_slip_submits createPayment refresh env s st body Hsent env s)
    in Htoast.
  destruct (POST_handled (with_formData env (slip_body st)) (start s))
    as (resp & w' & Hrun & _).
  assert (Hresp : response_of (with_formData env (slip_body st)) s = Returned resp)
    by (unfold response_of; now rewrite Hrun).
  destruct (submit_slip_reads refresh env s st resp Hresp) as [Hok Hnot].
  destruct (Response_eq_success resp) as [Heq|Hne].
  - destruct (Hok Heq) as [Ht _]. rewrite Ht in Htoast. discriminate.
  - destruct (Hnot Hne) as [Ht _]. rewrite Ht in Htoast.
    unfold failure_toast in Htoast.
    destruct (String.eqb _ _); [discriminate|].
    destruct (String.eqb _ _); discriminate.
Qed.

(** X19. The limit warning of the form and the limit refusal of
    [handleDeposit]. With the tier loaded, [showLimitError] is set exactly
    when the amount text is a number above zero that is not at most what is
    left of the daily limit, the double [Number(dailyLimit) -
    todayDeposits]; it is never set together with [canDeposit]. And
    [handleDeposit] refuses with the limit toast exactly when
    [showLimitError] is set and what is left is a number, unless a bank
    transfer has no file yet (then it asks for the missing data first):
    when what is left is [NaN] the warning shows and the form is submitted
    all the same. *)
Theorem limit_warning_matches_refusal createPayment refresh env s st limit :
  DepositPage.depositLimit st = Some limit ->
  let n := DepositPage.Number (DepositPage.amount st) in
  let rest := (DepositPage.dailyLimit limit - DepositPage.todayDeposits st)%float in
  (DepositPage.showLimitError st = true <->
   DepositPage.text (DepositPage.amount st) <> "" /\
   (0 <? n)%float = true /\ (n <=? rest)%float = false) /\
  (DepositPage.showLimitError st = true -> DepositPage.canDeposit st = false) /\
  (DepositPage.toasts (DepositPage.handleDeposit createPayment refresh env s st) =
     [DepositPage.toast_error (DepositPage.Text DepositPage.over_limit)] <->
   DepositPage.showLimitError st = true /\
   is_nan rest = false /\
   ~ (DepositPage.method_is st "bank" = true /\ DepositPage.selectedFile st = None)).
Proof.
  intros Hlimit. cbv zeta.
  assert (Hshow : DepositPage.showLimitError st = true <->
            DepositPage.text (DepositPage.amount st) <> "" /\
            (0 <? DepositPage.Number (DepositPage.amount st))%float = true /\
            (DepositPage.Number (DepositPage.amount st) <=?
             DepositPage.dailyLimit limit - DepositPage.todayDeposits st)%float
            = false).
  { unfold DepositPage.showLimitError, DepositPage.canDeposit,
      DepositPage.remainingDailyLimit, truthy_string.
    rewrite Hlimit.
    destruct (String.eqb (DepositPage.text (DepositPage.amount st)) "") eqn:Htext;
      cbn [negb andb orb].
    - apply String.eqb_eq in Htext. split; [discriminate|]. intros [Hne _]. contradiction.
    - apply String.eqb_neq in Htext.
      destruct (0 <? _)%float; cbn [andb negb].
      + destruct (_ <=? _)%float; cbn [negb].
        * split; [discriminate|]. intros (_ & _ & H). discriminate.
        * split; [|reflexivity]. intros _. repeat split. exact Htext.
      + split; [discriminate|]. intros (_ & H & _). discriminate. }
  split; [exact Hshow|]. split.
  - unfold DepositPage.showLimitError.
    destruct (DepositPage.canDeposit st); [|reflexivity].
    rewrite andb_false_r. discriminate.
  - split.
    + intros Htoast.
      destruct (refused_for_limit createPayment refresh env s st Htoast)
        as [Hrefused | (body & Hsent)];
        [|exfalso; exact (sent_slip_toast _ _ _ _ _ _ Hsent Htoast)].
      clear Htoast. revert Hrefused. unfold DepositPage.handleDeposit. cbv zeta.
      rewrite Hlimit.
      destruct (DepositPage.method_is st "bank") eqn:Hbank; cbn [andb].
      * destruct (DepositPage.selectedFile st) as [file|] eqn:Hfile; cbn [orb];
          [|discriminate].
        destruct (String.eqb (DepositPage.text (DepositPage.amount st)) "") eqn:Htext;
          unfold truthy_string; rewrite Htext; cbn [negb]; [discriminate|].
        apply String.eqb_neq in Htext.
        destruct (is_nan _ || _) eqn:Hguard; [discriminate|].
        apply above_zero in Hguard.
        destruct (_ - _ <? _)%float eqn:Hover.
        -- intros _. split; [|split].
           ++ apply Hshow. repeat split;
                [exact Htext | exact Hguard | now apply ltb_leb_false].
           ++ apply (ltb_not_nan _ _ Hover).
           ++ intros [_ Hnone]. discriminate.
        -- destruct (submit_slip_sent refresh env s st) as (Hs & _).
           intros Heq. rewrite Heq in Hs. discriminate.
      * destruct (is_nan _ || _) eqn:Hguard; [discriminate|].
        apply above_zero in Hguard.
        destruct (_ - _ <? _)%float eqn:Hover.
        -- intros _. split; [|split].
           ++ apply Hshow. repeat split;
                [ | exact Hguard | now apply ltb_leb_false].
              intros Htext. unfold DepositPage.Number in Hguard.
              rewrite Htext in Hguard. discriminate Hguard.
           ++ apply (ltb_not_nan _ _ Hover).
           ++ intros [Hb _]. discriminate.
        -- destruct (DepositPage.method_is st "card").
           ++ unfold DepositPage.submit_card.
              destruct (createPayment _); discriminate.
           ++ discriminate.
    + intros (Hs & Hrest & Hfile). apply Hshow in Hs.
      destruct Hs as (Htext & Hpos & Hover).
      unfold DepositPage.handleDeposit. cbv zeta.
      assert (Hstep1 : DepositPage.method_is st "bank" &&
                (match DepositPage.selectedFile st with
                 | None => true | Some _ => false end
                 || negb (truthy_string (DepositPage.text (DepositPage.amount st))))
              = false).
      { rewrite (truthy_nonempty _ Htext). cbn [negb]. rewrite orb_false_r.
        destruct (DepositPage.method_is st "bank"); [|reflexivity].
        destruct (DepositPage.selectedFile st); [reflexivity|].
        exfalso. apply Hfile. split; reflexivity. }
      rewrite Hstep1, (proj2 (above_zero _) Hpos), Hlimit.
      rewrite (leb_false_ltb _ _ Hrest (proj2 (ltb_not_nan _ _ Hpos)) Hover).
      reflexivity.
Qed.

Lemma limit_warning_matches_refusal_witness :
  let st := PageSample.rest_of_limit "card" in
  DepositPage.showLimitError st = true /\
  DepositPage.toasts
    (DepositPage.handleDeposit PageSample.createPayment PageSample.refresh
       Scenario.anonymous Sample.shop st) =
    [DepositPage.toast_error (DepositPage.Text DepositPage.over_limit)].
Proof.
  intros st.
  destruct (limit_warning_matches_refusal PageSample.createPayment PageSample.refresh
              Scenario.anonymous Sample.shop st (Scenario.tier 5000000) eq_refl)
    as (Hshow & _ & Hrefuse).
  assert (Hs : DepositPage.showLimitError st = true).
  { apply Hshow. split; [discriminate|]. split; reflexivity. }
  split; [exact Hs|]. apply Hrefuse. split; [exact Hs|]. split; [reflexivity|].
  intros [Hbank _]. discriminate.
Defined.

(** * Properties of the price list *)

Lemma renders_kept settings price :
  GoldPrices.renders settings price = GoldPrices.kept settings price.
Proof.
  unfold GoldPrices.renders, GoldPrices.kept.
  destruct (GoldPrices.GOLD_TYPES _); [|reflexivity].
  destruct (find _ settings) as [setting|]; [|reflexivity].
  destruct (GoldPrices.isActive setting); reflexivity.
Qed.

Lemma filter_idempotent {A} (f : A -> bool) (l : list A) :
  filter f (filter f l) = filter f l.
Proof.
  induction l as [|x l IH]; [reflexivity|].
  cbn [filter]. destruct (f x) eqn:E; [|exact IH].
  cbn [filter]. now rewrite E, IH.
Qed.

(** X21. The price list and its rendering agree. Every price that
    [filterPricesWithSettings] keeps is rendered as a card under the same
    settings, so the list shows no gaps, and the cards rendered from an
    unfiltered list are exactly the filtered list; filtering again with the
    same settings changes nothing; with no settings loaded nothing is
    kept. *)
Theorem filtered_prices_are_rendered prices settings :
  let shown := GoldPrices.filterPricesWithSettings prices settings in
  forallb (GoldPrices.renders settings) shown = true /\
  filter (GoldPrices.renders settings) prices = shown /\
  GoldPrices.filterPricesWithSettings shown settings = shown /\
  GoldPrices.filterPricesWithSettings prices [] = [].
Proof.
  cbv zeta. unfold GoldPrices.filterPricesWithSettings.
  split; [|split; [|split]].
  - apply forallb_forall. intros p Hin. apply filter_In in Hin.
    rewrite renders_kept. tauto.
  - apply filter_ext. intros p. apply renders_kept.
  - apply filter_idempotent.
  - induction prices as [|p prices IH]; [reflexivity|].
    cbn [filter]. unfold GoldPrices.kept at 1.
    destruct (GoldPrices.GOLD_TYPES _); exact IH.
Qed.

(** X22. Settings updates only ever remove prices. After two settings
    updates the list holds the prices that both settings keep, in their
    original order, whichever update came first; so a price dropped by one
    update does not come back when a later update activates its product
    again (it returns only with new prices), and when several settings
    carry the name of a product the first one decides. *)
Theorem settings_updates_only_remove prices first second :
  let after := GoldPrices.settings_update second
                 (GoldPrices.settings_update first prices) in
  after = filter (fun p => GoldPrices.kept first p && GoldPrices.kept second p) prices /\
  after = GoldPrices.settings_update first (GoldPrices.settings_update second prices) /\
  (forall p, In p after -> In p (GoldPrices.settings_update second prices)) /\
  (forall p, GoldPrices.kept first p = false -> ~ In p after) /\
  (forall p goldType inactive rest,
     GoldPrices.GOLD_TYPES (GoldPrices.name p) = Some goldType ->
     GoldPrices.setting_name inactive = goldType ->
     GoldPrices.isActive inactive = false ->
     ~ In p (GoldPrices.settings_update (inactive :: rest) prices)).
Proof.
  cbv zeta. unfold GoldPrices.settings_update, GoldPrices.filterPricesWithSettings.
  assert (Hboth : forall f g : GoldPrices.GoldPrice -> bool,
            filter g (filter f prices) = filter (fun p => f p && g p) prices).
  { intros f g. induction prices as [|p l IH]; [reflexivity|].
    cbn [filter]. destruct (f p); cbn [andb filter]; [|exact IH].
    destruct (g p); now rewrite IH. }
  split; [apply Hboth|]. split.
  - rewrite !Hboth. apply filter_ext. intros p. apply andb_comm.
  - split; [|split].
    + intros p Hin. rewrite Hboth in Hin. apply filter_In in Hin.
      destruct Hin as [Hin Hk]. apply andb_true_iff in Hk.
      apply filter_In. tauto.
    + intros p Hk Hin. rewrite Hboth in Hin. apply filter_In in Hin.
      destruct Hin as [_ Hb]. rewrite Hk in Hb. discriminate.
    + intros p goldType inactive rest Htype Hname Hoff Hin.
      apply filter_In in Hin. destruct Hin as [_ Hk].
      unfold GoldPrices.kept in Hk. rewrite Htype in Hk. cbn [find] in Hk.
      rewrite Hname, String.eqb_refl, Hoff in Hk. discriminate.
Qed.
